(** * The recommendation engine of the electives recommendation system

    A shallow embedding of [recommender.py] (with the parts of [student.py]
    and [university.py] it reads) and the properties of its training
    procedure, its recommendation generation and its feedback recording.

    Modelling conventions.
    - Python exceptions are values of [exception]; a call that may raise
      returns a [result].  Failed [assert]s carry their message.
    - numpy/pandas floats are an abstract [Scalar]: the embedding only uses
      the arithmetic operators the source applies, so every theorem stated
      for an arbitrary [Scalar] holds whatever these operators compute.
      The square of a Python float, which raises when it is out of range,
      is an operator of its own.  Theorems that compare the code with a
      closed formula of the specification additionally assume [ScalarLaws]
      (exact arithmetic), which floats do not satisfy.
    - A pandas [DataFrame] is its index name, its column labels and its
      rows, each row keyed by its index label, a string or an integer.  A
      csv file is its header and its records, the labels as text;
      [read_csv] infers the type of the index from that text, so that
      labels made of digits are read as integers.  Numeric cells are kept
      as scalars: how [to_csv] prints a float and how [read_csv] parses it
      back is not modelled.
    - [np.random.uniform] is a table of draws passed as an argument. *)

From Stdlib Require Import ZArith String List Permutation Lia.
From Stdlib Require OrderedTypeEx.
From stdpp Require Import base tactics option list strings pretty sorting.

Local Open Scope string_scope.
Local Open Scope Z_scope.
Local Open Scope list_scope.

(** ** Python exceptions and results *)

Inductive exception : Type :=
| AssertionError (msg : string)
| KeyError (label : string)
| KeyError_not_in_index (labels : list string)
| ValueError (msg : string)
| AttributeError (msg : string)
| TypeError (msg : string)
| EmptyDataError
| FileNotFoundError
| ZeroDivisionError
| OverflowError (msg : string).

Inductive result (A : Type) : Type :=
| Return (a : A)
| Raise (e : exception).
Arguments Return {A} a.
Arguments Raise {A} e.

#[global] Instance result_ret : MRet result := λ A a, Return a.
#[global] Instance result_bind : MBind result := λ A B f m,
  match m with
  | Return a => f a
  | Raise e => Raise e
  end.

(** [assert cond, msg] *)
Definition py_assert (cond : bool) (msg : string) : result unit :=
  if cond then Return tt else Raise (AssertionError msg).

(** [for x in xs: acc = body(acc, x)], stopping at the first exception. *)
Fixpoint for_each {A B : Type} (body : A → B → result A) (xs : list B) (acc : A)
  : result A :=
  match xs with
  | [] => Return acc
  | x :: xs' => acc' ← body acc x; for_each body xs' acc'
  end.

(** [x in range(lo, hi)] for an integer [x]. *)
Definition in_range (x lo hi : Z) : bool := (lo <=? x) && (x <? hi).

(** ** Scalars *)

(** [py_pow2 x] is [x ** 2] on a Python float, which raises
    [OverflowError] when the square is out of range ([None] here); the
    product [x * x] of numpy floats does not raise. *)
Class Scalar (R : Type) : Type := {
  of_Z : Z → R;
  radd : R → R → R;
  rsub : R → R → R;
  rmul : R → R → R;
  rdiv : R → R → R;
  rleb : R → R → bool;
  py_pow2 : R → option R
}.

Declare Scope scalar_scope.
Delimit Scope scalar_scope with S.
Infix "+" := radd : scalar_scope.
Infix "-" := rsub : scalar_scope.
Infix "*" := rmul : scalar_scope.
Infix "/" := rdiv : scalar_scope.

(** Exact arithmetic, as opposed to the floats of the program: sums may be
    regrouped and reordered, and no square is out of range. *)
Class ScalarLaws (R : Type) `{Scalar R} : Prop := {
  radd_assoc : ∀ x y z : R, (x + (y + z))%S = ((x + y) + z)%S;
  radd_comm : ∀ x y : R, (x + y)%S = (y + x)%S;
  radd_0_l : ∀ x : R, (of_Z 0 + x)%S = x;
  py_pow2_exact : ∀ x : R, py_pow2 x = Some (x * x)%S
}.

#[global] Instance Z_scalar : Scalar Z := {|
  of_Z := id; radd := Z.add; rsub := Z.sub; rmul := Z.mul; rdiv := Z.div;
  rleb := Z.leb; py_pow2 := λ x, Some (x * x)
|}.

(** ** Data frames and csv files *)

(** An index label: a Python string, or an integer.  A string is never
    equal to an integer, so a lookup by a string does not find an integer
    label of the same digits. *)
Inductive label : Type :=
| LStr (s : string)
| LInt (z : Z).
Coercion LStr : string >-> label.

#[global] Instance label_eq_dec : EqDecision label.
Proof. solve_decision. Defined.

(** The text [to_csv] writes for a label. *)
Definition label_text (l : label) : string :=
  match l with
  | LStr s => s
  | LInt z => pretty z
  end.

(** The type of the column labels: strings, or the integers 0..K-1 of a
    frame built without column labels.  The columns are kept as their
    text; this program looks no column up by its label. *)
Inductive dtype : Type := Object | Int64.

Record DataFrame (A : Type) : Type := mkDataFrame {
  index_name : option string;
  columns_name : option string;
  columns_dtype : dtype;
  columns : list string;
  rows : list (label * list A)
}.
Arguments mkDataFrame {A} _ _ _ _ _.
Arguments index_name {A} _.
Arguments columns_name {A} _.
Arguments columns_dtype {A} _.
Arguments columns {A} _.
Arguments rows {A} _.

(** [df.index] *)
Definition index {A} (df : DataFrame A) : list label := (rows df).*1.

(** [df.shape] *)
Definition shape {A} (df : DataFrame A) : nat * nat :=
  (length (rows df), length (columns df)).

(** A csv file: its header and its records, the first cell of a record
    being the text of its label.  The other cells are kept as the values
    they stand for: how [to_csv] prints a float and how [read_csv] parses
    it back is not modelled. *)
Record csv (A : Type) : Type := mkCsv {
  header : list string;
  records : list (string * list A)
}.
Arguments mkCsv {A} _ _.
Arguments header {A} _.
Arguments records {A} _.

(** [df.to_csv(path, index=True)]: the index is the first column, under the
    name of the index. *)
Definition to_csv {A} (df : DataFrame A) : csv A :=
  {| header := default "" (index_name df) :: columns df;
     records := map (λ r : label * list A, (label_text r.1, r.2)) (rows df) |}.

(** [pd.DataFrame().to_csv(path, index=False)]: a file without data. *)
Definition empty_csv {A} : csv A := {| header := []; records := [] |}.

Definition is_digit (c : Ascii.ascii) : bool :=
  ((48 <=? Ascii.N_of_ascii c) && (Ascii.N_of_ascii c <=? 57))%N.

Definition is_letter (c : Ascii.ascii) : bool :=
  (((65 <=? Ascii.N_of_ascii c) && (Ascii.N_of_ascii c <=? 90))
   || ((97 <=? Ascii.N_of_ascii c) && (Ascii.N_of_ascii c <=? 122)))%N.

(** A run of 1 to 18 digits: text that [read_csv] takes for an integer
    (of 64 bits). *)
Definition is_digits (s : string) : bool :=
  let cs := list_ascii_of_string s in
  forallb is_digit cs && (1 <=? length cs)%nat && (length cs <=? 18)%nat.

Definition digits_value (s : string) : Z :=
  fold_left (λ acc c, 10 * acc + (Z.of_N (Ascii.N_of_ascii c) - 48))
            (list_ascii_of_string s) 0.

(** A label that begins with a letter and holds a digit, such as 'nr1' or
    'ST104a' of [demo.py]: text that [read_csv] takes for no number, no
    boolean and no missing value. *)
Definition text_label (s : string) : bool :=
  match s with
  | EmptyString => false
  | String c _ => is_letter c && existsb is_digit (list_ascii_of_string s)
  end.

(** The type [read_csv] infers for the index column: when every label of
    the column is a run of digits the index holds integers, and labels that
    are text stay the strings they are.  (What pandas makes of the other
    labels that read as numbers, with a sign, blanks, a fraction or an
    exponent, and of those that read as booleans or missing values, is not
    gone into: they are left as written, and the properties that need a
    label to be a string ask for [text_label].) *)
Definition infer_index (texts : list string) : list label :=
  if forallb is_digits texts
  then (λ t, LInt (digits_value t)) <$> texts
  else LStr <$> texts.

(** [pd.read_csv(path, index_col=name)].  A file without a header line raises
    [EmptyDataError]; the files of this program carry the index in their
    first column, and a first column of another name raises.  The column
    labels are the strings of the header. *)
Definition read_csv {A} (index_col : string) (f : csv A) : result (DataFrame A) :=
  match header f with
  | [] => Raise EmptyDataError
  | h :: cols =>
      if decide (h = index_col)
      then Return {| index_name := Some index_col; columns_name := None;
                     columns_dtype := Object; columns := cols;
                     rows := zip (infer_index (records f).*1) (records f).*2 |}
      else Raise (ValueError ("Index " +:+ index_col +:+ " invalid"))
  end.

(** [df.rename_axis(name, axis=1)] *)
Definition rename_axis_columns {A} (name : string) (df : DataFrame A) : DataFrame A :=
  {| index_name := index_name df; columns_name := Some name;
     columns_dtype := columns_dtype df;
     columns := columns df; rows := rows df |}.

(** [df.columns], as labels. *)
Definition columns_index {A} (df : DataFrame A) : list label :=
  match columns_dtype df with
  | Object => LStr <$> columns df
  | Int64 => (λ t, LInt (digits_value t)) <$> columns df
  end.

(** Lookup by label on the rows of a frame or the entries of a series. *)
Fixpoint lookup_row {K} `{EqDecision K} {V} (label : K) (rs : list (K * V))
  : option V :=
  match rs with
  | [] => None
  | (k, v) :: rs' => if decide (k = label) then Some v else lookup_row label rs'
  end.

(** Row assignment by label; a label that is absent is appended (setting
    with enlargement). *)
Fixpoint assign_row {K} `{EqDecision K} {V} (label : K) (v : V) (rs : list (K * V))
  : list (K * V) :=
  match rs with
  | [] => [(label, v)]
  | (k, w) :: rs' =>
      if decide (k = label) then (k, v) :: rs' else (k, w) :: assign_row label v rs'
  end.

(** [df.loc[label]] for a string [label] *)
Definition loc {A} (label : string) (df : DataFrame A) : result (list A) :=
  match lookup_row (LStr label) (rows df) with
  | Some v => Return v
  | None => Raise (KeyError label)
  end.

(** [df.loc[label] = v] for a string [label] *)
Definition set_loc {A} (label : string) (v : list A) (df : DataFrame A) : DataFrame A :=
  {| index_name := index_name df; columns_name := columns_name df;
     columns_dtype := columns_dtype df;
     columns := columns df; rows := assign_row (LStr label) v (rows df) |}.

(** ** The entities the engine reads ([student.py], [university.py]) *)

Record date : Type := mkDate { year : Z; month : Z; day : Z }.

(** An enrolment: [admission.student.student_number],
    [admission.course.course_number], the nullable [course_rating] and the
    [start_date] (the primary key is student, course and start date). *)
Record StudentCourse : Type := mkStudentCourse {
  enrolled_student_number : string;
  enrolled_course_number : string;
  course_rating : option Z;
  start_date : date
}.

Record Course : Type := mkCourse {
  course_number : string;
  admissions : list StudentCourse
}.

Record University : Type := mkUniversity {
  courses : list Course
}.

Record Student : Type := mkStudent {
  student_number : string;
  enrollments : list StudentCourse
}.

(** [University.find_course]: the first course of that number, or [None]. *)
Definition find_course (self : University) (number : string) : option Course :=
  List.find (λ c, bool_decide (course_number c = number)) (courses self).

(** ** RatingsStore: [reload_ratings] *)

(** The rows [student_number, course_number, rating] of [long_df]. *)
Definition long_row : Type := string * string * option Z.

(** Labels in the order pandas gives the axes of a pivot: sorted, each once. *)
Fixpoint insert_label (x : string) (l : list string) : list string :=
  match l with
  | [] => [x]
  | y :: l' =>
      match String.compare x y with
      | Lt => x :: l
      | Eq => l
      | Gt => y :: insert_label x l'
      end
  end.

Definition sorted_labels (l : list string) : list string :=
  foldr insert_label [] l.

(** The cell of a pivot: the value of the row of that (index, column) pair,
    absent when there is no such row or its rating is null.  The axes of the
    pivot are the sorted labels; [pivot] below refuses duplicated pairs. *)
Definition pivot_cell (long_df : list long_row) (s c : string) : option Z :=
  match List.find (λ r : long_row, bool_decide (r.1 = (s, c))) long_df with
  | Some r => r.2
  | None => None
  end.

Definition reshape (long_df : list long_row) : DataFrame (option Z) :=
  let students := sorted_labels (long_df.*1.*1) in
  let course_numbers := sorted_labels (long_df.*1.*2) in
  {| index_name := Some "student_number";
     columns_name := Some "course_number";
     columns_dtype := Object;
     columns := course_numbers;
     rows := map (λ s, (LStr s, map (pivot_cell long_df s) course_numbers)) students |}.

(** [long_df.pivot(index='student_number', columns='course_number',
    values='rating')]; pandas refuses to reshape when an (index, column) pair
    occurs twice. *)
Definition pivot (long_df : list long_row) : result (DataFrame (option Z)) :=
  if decide (NoDup (long_df.*1))
  then Return (reshape long_df)
  else Raise (ValueError "Index contains duplicate entries, cannot reshape").

(** [long_df.dropna()] written with [to_csv(index=False, header=False)]: one
    line [student_number,course_number,rating] per row with a rating. *)
Definition known_line : Type := string * string * Z.

Definition dropna (long_df : list long_row) : list known_line :=
  omap (λ r : long_row, (λ v, (r.1, v)) <$> r.2) long_df.

(** The rows [reload_ratings] collects: every admission of every course. *)
Definition all_admissions (university : University) : list long_row :=
  c ← courses university;
  a ← admissions c;
  [(enrolled_student_number a, enrolled_course_number a, course_rating a)].

Section Engine.

Context {R : Type} `{Scalar R}.

(** The persisted state of a [RecommendationSystem]: the content of its four
    files (the parameter files do not exist before the first training run)
    and its [trained] column. *)
Record RecommendationSystem : Type := mkRecommendationSystem {
  student_course_matrix_path : csv (option Z);
  known_ratings_matrix_path : list known_line;
  model_parameters_path_Q : option (csv R);
  model_parameters_path_P : option (csv R);
  trained : bool
}.

(** [RecommendationSystem.__init__]: two files without data, no parameter
    file yet. *)
Definition RecommendationSystem_init : RecommendationSystem :=
  {| student_course_matrix_path := empty_csv;
     known_ratings_matrix_path := [];
     model_parameters_path_Q := None;
     model_parameters_path_P := None;
     trained := false |}.

(** The property [student_course_matrix]. *)
Definition student_course_matrix (self : RecommendationSystem)
  : result (option (DataFrame (option Z))) :=
  match read_csv "student_number" (student_course_matrix_path self) with
  | Return df => Return (Some (rename_axis_columns "course_number" df))
  | Raise EmptyDataError => Return None
  | Raise e => Raise e
  end.

(** [open(path)] on a parameter file that may not exist yet. *)
Definition open_file {A} (f : option A) : result A :=
  match f with
  | Some c => Return c
  | None => Raise FileNotFoundError
  end.

(** The property [parameters]. *)
Definition parameters (self : RecommendationSystem)
  : result (option (DataFrame R * DataFrame R)) :=
  let read :=
    fQ ← open_file (model_parameters_path_Q self);
    Q ← read_csv "course_number" fQ;
    fP ← open_file (model_parameters_path_P self);
    P ← read_csv "student_number" fP;
    Return (Q, P) in
  match read with
  | Return QP => Return (Some QP)
  | Raise EmptyDataError => Return None
  | Raise e => Raise e
  end.

(** [reload_ratings]: both views are computed before either file is
    written. *)
Definition reload_ratings (self : RecommendationSystem) (university : University)
  : result RecommendationSystem :=
  let long_df := all_admissions university in
  student_course_matrix ← pivot long_df;
  let known_ratings_matrix := dropna long_df in
  Return {| student_course_matrix_path := to_csv student_course_matrix;
            known_ratings_matrix_path := known_ratings_matrix;
            model_parameters_path_Q := model_parameters_path_Q self;
            model_parameters_path_P := model_parameters_path_P self;
            trained := trained self |}.

(** ** Trainer: [train_model] *)

(** Vectors of factors ([pd.Series] over the columns 0..K-1) and the
    elementwise operators the source applies to them. *)
Definition scale (a : R) (v : list R) : list R := map (rmul a) v.
Definition vadd (u v : list R) : list R := zip_with radd u v.
Definition vsub (u v : list R) : list R := zip_with rsub u v.

(** Python's [sum]: left to right, from 0. *)
Definition py_sum (l : list R) : R := fold_left radd l (of_Z 0).

(** [np.dot(q, p)]: the sum of the products, taken here in index order. *)
Definition dot (q p : list R) : R := py_sum (zip_with rmul q p).

(** [x ** 2] *)
Definition square (x : R) : R := (x * x)%S.

(** [np.random.uniform(low, high, size=(n, k))], from a table of draws. *)
Definition uniform (draw : nat → nat → R) (n k : nat) : list (list R) :=
  map (λ i, map (draw i) (seq 0 k)) (seq 0 n).

(** [pd.DataFrame(data, index=labels)] with [k] columns: the index keeps
    the name of the axis it is taken from, the columns are the integers
    0..k-1. *)
Definition new_frame (data : list (list R)) (axis_name : option string)
    (labels : list label) (k : nat) : DataFrame R :=
  {| index_name := axis_name; columns_name := None;
     columns_dtype := Int64;
     columns := pretty <$> seq 0 k; rows := zip labels data |}.

(** The pair (Q, P) of factor matrices the training loop mutates. *)
Definition factors : Type := DataFrame R * DataFrame R.

(** The body of the update loop for one line of the known-ratings file. *)
Definition sgd_step (regularization_parameter learning_rate : R)
    (QP : factors) (line : known_line) : result factors :=
  let '(Q, P) := QP in
  let '(student_number, course_number, rating) := line in
  let rating := of_Z rating in
  q ← loc course_number Q;
  p ← loc student_number P;
  let epsilon := (of_Z 2 * (rating - dot q p))%S in
  let q_update :=
    scale learning_rate
      (vsub (scale epsilon p) (scale (of_Z 2 * regularization_parameter)%S q)) in
  let p_update :=
    scale learning_rate
      (vsub (scale epsilon q) (scale (of_Z 2 * regularization_parameter)%S p)) in
  let q := vadd q q_update in
  let p := vadd p p_update in
  Return (set_loc course_number q Q, set_loc student_number p P).

(** One pass of the update loop over the file. *)
Definition sgd_epoch (regularization_parameter learning_rate : R)
    (known : list known_line) (QP : factors) : result factors :=
  for_each (sgd_step regularization_parameter learning_rate) known QP.

(** The body of the error loop: [E += (rating - np.dot(q, p)) ** 2]. *)
Definition error_step (QP : factors) (E : R) (line : known_line) : result R :=
  let '(Q, P) := QP in
  let '(student_number, course_number, rating) := line in
  let rating := of_Z rating in
  q ← loc course_number Q;
  p ← loc student_number P;
  Return (E + square (rating - dot q p))%S.

(** [df.apply(f)]: [f] on every column (axis 0 is the default), the results
    in column order; the first call that raises ends the [apply]. *)
Definition column (j : nat) (df : DataFrame R) : list R :=
  omap (λ r : label * list R, r.2 !! j) (rows df).

Fixpoint map_result {A B} (f : A → result B) (l : list A) : result (list B) :=
  match l with
  | [] => Return []
  | x :: l' => y ← f x; ys ← map_result f l'; Return (y :: ys)
  end.

Definition apply_columns (f : list R → result R) (df : DataFrame R)
  : result (list R) :=
  map_result (λ j, f (column j df)) (seq 0 (length (columns df))).

(** [term ** 2] for a [term] of a column: a Python float. *)
Definition pow2 (term : R) : result R :=
  match py_pow2 term with
  | Some y => Return y
  | None => Raise (OverflowError "(34, 'Numerical result out of range')")
  end.

(** [sum(df.apply(lambda row: sum([term ** 2 for term in row])))] *)
Definition sum_of_squares (df : DataFrame R) : result R :=
  sums ← apply_columns (λ col, squares ← map_result pow2 col;
                               Return (py_sum squares)) df;
  Return (py_sum sums).

(** The training-set error computed at the end of an epoch. *)
Definition epoch_error (regularization_parameter : R) (known : list known_line)
    (QP : factors) : result R :=
  E ← for_each (error_step QP) known (of_Z 0);
  sQ ← sum_of_squares QP.1;
  let E := (E + regularization_parameter * sQ)%S in
  sP ← sum_of_squares QP.2;
  let E := (E + regularization_parameter * sP)%S in
  Return E.

(** The body of [for epoch in range(epochs)]. *)
Definition epoch_body (regularization_parameter learning_rate : R)
    (known : list known_line) (st : factors * list R) (epoch : nat)
  : result (factors * list R) :=
  let '(QP, errors) := st in
  QP ← sgd_epoch regularization_parameter learning_rate known QP;
  E ← epoch_error regularization_parameter known QP;
  Return (QP, errors ++ [E]).

(** The initialisation of the decomposition matrices. *)
Definition initial_factors (scm : DataFrame (option Z)) (k : nat)
    (draw_Q draw_P : nat → nat → R) : factors :=
  let '(number_students, number_courses) := shape scm in
  let student_numbers := index scm in
  let course_numbers := columns_index scm in
  let Q := new_frame (uniform draw_Q number_courses k)
                     (columns_name scm) course_numbers k in
  let P := new_frame (uniform draw_P number_students k)
                     (index_name scm) student_numbers k in
  (Q, P).

(** [train_model] up to the end of the epochs: the fitted matrices and the
    errors.  [draw_Q] and [draw_P] are the draws of the two calls of
    [np.random.uniform]; [10 / number_factors] divides by zero for no factor,
    and for a negative number the square root is not a number, a bound
    [np.random.uniform] refuses. *)
Definition fit (self : RecommendationSystem)
    (regularization_parameter : R) (epochs : Z) (learning_rate : R)
    (number_factors : Z) (draw_Q draw_P : nat → nat → R)
  : result (factors * list R) :=
  scm ← student_course_matrix self;
  match scm with
  | None => Raise (AttributeError "'NoneType' object has no attribute 'shape'")
  | Some scm =>
      _ ← (if decide (number_factors = 0) then Raise ZeroDivisionError
           else Return tt);
      _ ← (if decide (number_factors < 0)
           then Raise (OverflowError "Range exceeds valid bounds")
           else Return tt);
      let QP := initial_factors scm (Z.to_nat number_factors) draw_Q draw_P in
      for_each (epoch_body regularization_parameter learning_rate
                           (known_ratings_matrix_path self))
               (seq 0 (Z.to_nat epochs)) (QP, [])
  end.

(** [train_model], [thread_errors] left at [None]: the parameter files and
    the [trained] flag are written after the last epoch only. *)
Definition train_model (self : RecommendationSystem)
    (regularization_parameter : R) (epochs : Z) (learning_rate : R)
    (number_factors : Z) (draw_Q draw_P : nat → nat → R)
  : result (RecommendationSystem * list R) :=
  '(QP, errors) ← fit self regularization_parameter epochs learning_rate
                      number_factors draw_Q draw_P;
  Return ({| student_course_matrix_path := student_course_matrix_path self;
             known_ratings_matrix_path := known_ratings_matrix_path self;
             model_parameters_path_Q := Some (to_csv QP.1);
             model_parameters_path_P := Some (to_csv QP.2);
             trained := true |}, errors).

(** ** Recommender: [generate_recommendations] *)

(** What [date.today()] returned when [recommender.py] was imported, and
    what it returns now.  A default value in a [def] is computed once, when
    the [def] statement runs: [Recommendation.__init__] takes its
    [date_generated] default at import, [RecommendationRating.__init__]
    calls [date.today()] in its body. *)
Record Clock : Type := mkClock {
  today_at_import : date;
  today : date
}.

Inductive Ratings : Type := HELPFUL | NOT_HELPFUL.

(** [RecommendationRating(recommendation, rating)]; the reference back to
    the recommendation is the field [rating] of [Recommendation] below. *)
Record RecommendationRating : Type := mkRecommendationRating {
  rating_value : Ratings;
  date_added : date
}.

Record Recommendation : Type := mkRecommendation {
  student : Student;
  course : option Course;
  correctness_probability : R;
  date_generated : date;
  rating : option RecommendationRating
}.

(** [Recommendation(student=.., course=.., correctness_probability=..)],
    [date_generated] left to its default. *)
Definition new_Recommendation (clock : Clock) (student : Student)
    (course : option Course) (correctness_probability : R) : Recommendation :=
  {| student := student; course := course;
     correctness_probability := correctness_probability;
     date_generated := today_at_import clock;
     rating := None |}.

(** A [pd.Series] of predicted ratings, keyed by course number. *)
Definition Series : Type := list (string * R).

(** [Q @ p.T]: one dot product per row of Q, under the label of the row. *)
Definition matmul (Q : DataFrame R) (p : list R) : list (label * R) :=
  map (λ r : label * list R, (r.1, dot r.2 p)) (rows Q).

(** [series.loc[labels]] for a list of strings: the entries of these
    labels, in the order of [labels]; when some label is missing, one
    [KeyError] that names every missing label. *)
Definition loc_labels (s : list (label * R)) (labels : list string) : result Series :=
  match List.filter (λ l, bool_decide (LStr l ∉ s.*1)) labels with
  | [] => Return (omap (λ l, (λ v, (l, v)) <$> lookup_row (LStr l) s) labels)
  | missing => Raise (KeyError_not_in_index missing)
  end.

(** [series.sort_values(ascending=False)].  Equal values keep their order
    here, which the quicksort of pandas does not promise; no property below
    depends on how ties are broken, and those on the order assume a total
    comparison (no NaN among the ratings). *)
Fixpoint insert_desc (x : string * R) (l : Series) : Series :=
  match l with
  | [] => [x]
  | y :: l' => if rleb y.2 x.2 then x :: l else y :: insert_desc x l'
  end.

Definition sort_values_desc (s : Series) : Series := foldr insert_desc [] s.

(** [series.head(n)] for [n >= 0]. *)
Definition head (n : Z) (s : Series) : Series := take (Z.to_nat n) s.

Definition msg_number_recommendations : string :=
  "The number of generated recommendations must be within [1, 3]".
Definition msg_not_trained : string :=
  "Please train the model at least once before generating a recommendation".

(** The complement: the columns of the matrix the student has no enrolment
    in. *)
Definition not_enrolled_in (courses : list string) (student : Student) : list string :=
  let enrolled_in_courses := enrolled_course_number <$> enrollments student in
  List.filter (λ course_number, bool_decide (course_number ∉ enrolled_in_courses))
              courses.

(** [generate_recommendations] *)
Definition generate_recommendations (self : RecommendationSystem) (clock : Clock)
    (university : University) (student : Student) (number_recommendations : Z)
  : result (list Recommendation) :=
  _ ← py_assert (in_range number_recommendations 1 4) msg_number_recommendations;
  _ ← py_assert (trained self) msg_not_trained;
  scm ← student_course_matrix self;
  match scm with
  | None => Raise (AttributeError "'NoneType' object has no attribute 'columns'")
  | Some scm =>
      let courses := columns scm in
      let not_enrolled_in_courses := not_enrolled_in courses student in
      let number_recommendations :=
        Z.min number_recommendations (Z.of_nat (length not_enrolled_in_courses)) in
      params ← parameters self;
      match params with
      | None => Raise (TypeError "cannot unpack non-iterable NoneType object")
      | Some (Q, P) =>
          p ← loc (student_number student) P;
          let predicted_ratings := matmul Q p in
          selected ← loc_labels predicted_ratings not_enrolled_in_courses;
          let predicted_ratings :=
            head number_recommendations (sort_values_desc selected) in
          Return (map (λ cr : string * R,
                         new_Recommendation clock student
                           (find_course university cr.1)
                           (cr.2 / of_Z 20)%S)
                      predicted_ratings)
      end
  end.

(** ** FeedbackRecorder: [Recommendation.add_rating] *)

(** The argument [rating_value]: a member of [Ratings], or a value of
    another type. *)
Inductive rating_argument : Type :=
| OfRatings (r : Ratings)
| OfOtherType (repr : string).

(** The SQLAlchemy session, as far as [add_rating] uses it: the ratings
    added and not yet committed, and those committed. *)
Record Session : Type := mkSession {
  pending : list RecommendationRating;
  committed : list RecommendationRating
}.

Definition session_add (r : RecommendationRating) (s : Session) : Session :=
  {| pending := pending s ++ [r]; committed := committed s |}.

Definition session_commit (s : Session) : Session :=
  {| pending := []; committed := committed s ++ pending s |}.

(** [add_rating] *)
Definition add_rating (self : Recommendation) (clock : Clock)
    (rating_value : rating_argument) (session : Session) (commit : bool)
  : result (Recommendation * Session) :=
  match rating_value with
  | OfOtherType _ => Raise (AssertionError "Please use a valid rating")
  | OfRatings v =>
      let r := {| rating_value := v; date_added := today clock |} in
      let self := {| student := student self; course := course self;
                     correctness_probability := correctness_probability self;
                     date_generated := date_generated self;
                     rating := Some r |} in
      let session := session_add r session in
      let session := if commit then session_commit session else session in
      Return (self, session)
  end.

(** ** The vocabulary of the specification *)

(** The failures the specification names, as the assertions that raise
    them. *)
Definition InvalidInputError : exception := AssertionError msg_number_recommendations.
Definition NotTrainedError : exception := AssertionError msg_not_trained.

(** The sums of the specification's error formula. *)
Definition rsum (l : list R) : R := foldr radd (of_Z 0) l.

(** The row [Q[i]] of the formulas. *)
Definition row_of (label : string) (df : DataFrame R) : list R :=
  default [] (lookup_row (LStr label) (rows df)).

(** [Q[i]·P[m]] *)
Definition inner (q p : list R) : R := rsum (zip_with rmul q p).

(** [‖v‖²] *)
Definition norm2 (v : list R) : R := rsum (map square v).

(** [Σ_(m,i,r) (r − Q[i]·P[m])² + λ·Σ_i‖Q[i]‖² + λ·Σ_m‖P[m]‖²] *)
Definition spec_error (regularization_parameter : R) (known : list known_line)
    (QP : factors) : R :=
  (rsum (map (λ l : known_line,
                square (of_Z l.2 - inner (row_of l.1.2 QP.1) (row_of l.1.1 QP.2)))
             known)
   + regularization_parameter * rsum (map (λ r : label * list R, norm2 r.2) (rows QP.1))
   + regularization_parameter * rsum (map (λ r : label * list R, norm2 r.2) (rows QP.2)))%S.

(** The matrices as they stand after [n] passes of the update loop. *)
Fixpoint after_epochs (regularization_parameter learning_rate : R)
    (known : list known_line) (n : nat) (QP : factors) : result factors :=
  match n with
  | O => Return QP
  | S n' =>
      QP' ← sgd_epoch regularization_parameter learning_rate known QP;
      after_epochs regularization_parameter learning_rate known n' QP'
  end.

(** ** Invariants of the training loop *)

(** Every row of the frame has one entry per column, [k] of them. *)
Definition rectangular (k : nat) (df : DataFrame R) : Prop :=
  length (columns df) = k ∧ ∀ r, r ∈ rows df → length r.2 = k.

(** Every known rating names a row of Q and a row of P. *)
Definition covers (known : list known_line) (QP : factors) : Prop :=
  ∀ l, l ∈ known → LStr l.1.2 ∈ index QP.1 ∧ LStr l.1.1 ∈ index QP.2.

Definition fitting (k : nat) (known : list known_line) (QP : factors) : Prop :=
  rectangular k QP.1 ∧ rectangular k QP.2 ∧ covers known QP.

(** Two pairs of matrices with the same row labels. *)
Definition same_index (QP QP' : factors) : Prop :=
  index QP'.1 = index QP.1 ∧ index QP'.2 = index QP.2.

(** The names train_model gives the axes of Q and P. *)
Definition named (axis_Q axis_P : string) (QP : factors) : Prop :=
  index_name QP.1 = Some axis_Q ∧ columns_name QP.1 = None
  ∧ index_name QP.2 = Some axis_P ∧ columns_name QP.2 = None.

(** The sum of the squares of a frame, column by column, when no square is
    out of range. *)
Definition squares_by_column (df : DataFrame R) : R :=
  py_sum (map (λ j, py_sum (map square (column j df)))
              (seq 0 (length (columns df)))).

(** The error of an epoch that has no known rating to go through. *)
Definition regularization_only (regularization_parameter : R) (QP : factors) : R :=
  (of_Z 0 + regularization_parameter * squares_by_column QP.1
   + regularization_parameter * squares_by_column QP.2)%S.

(** No square of an entry of the frame is out of range. *)
Definition squares_in_range (df : DataFrame R) : Prop :=
  ∀ r x, r ∈ rows df → x ∈ r.2 → py_pow2 x = Some (square x).

End Engine.

(** ** The callers: [student.py], [person.py], [user.py] *)

(** [Student.years_completed]: [int(self.terms_completed / 2)], the true
    division rounded towards zero.  The float quotient is the exact one for
    the integers a float holds exactly, below 2^53 in absolute value. *)
Definition years_completed (terms_completed : Z) : Z := Z.quot terms_completed 2.

(** [s.split(sep)] for a separator given as a string: the pieces between
    the occurrences of [sep], found from left to right.  [skip] counts the
    characters of an occurrence that are still to be passed over and [cur]
    is the piece read so far. *)
Fixpoint split_from (sep : string) (skip : nat) (cur s : string) : list string :=
  match s with
  | EmptyString => [cur]
  | String c s' =>
      match skip with
      | S k => split_from sep k cur s'
      | O =>
          if String.prefix sep s
          then cur :: split_from sep (String.length sep - 1) "" s'
          else split_from sep 0 (cur +:+ String c "") s'
      end
  end.

Definition str_split (s sep : string) : result (list string) :=
  if decide (sep = "") then Raise (ValueError "empty separator")
  else Return (split_from sep 0 "" s).

(** [sep.join(pieces)] *)
Definition str_join (sep : string) (pieces : list string) : string :=
  String.concat sep pieces.

(** A row of the [user] table with its polymorphic identity. *)
Inductive user_class : Type :=
| UserClass | PersonClass | StudentClass | TutorClass | UniversityClass.

#[global] Instance user_class_eq_dec : EqDecision user_class.
Proof. solve_decision. Defined.

Record User : Type := mkUser {
  username : string;
  password : string;
  type : user_class
}.

(** The rows [session.query(cls)] ranges over: those of [cls] and of its
    subclasses ([Person] and [University] extend [User], [Student] and
    [Tutor] extend [Person]). *)
Definition instance_of (cls t : user_class) : bool :=
  match cls with
  | UserClass => true
  | PersonClass => bool_decide (t = PersonClass ∨ t = StudentClass ∨ t = TutorClass)
  | _ => bool_decide (t = cls)
  end.

(** [User.verify_credentials], on the rows of the [user] table. *)
Definition verify_credentials (cls : user_class) (username' password' : string)
    (session : list User) : result (option User) :=
  let users :=
    List.filter (λ u, instance_of cls (type u)
                      && bool_decide (username u = username')
                      && bool_decide (password u = password')) session in
  _ ← py_assert (length users <=? 1)%nat
        "More than one user with such credentials in the database.";
  Return (List.head users).

(** [Person]: the names (the [name] of its [Name] rows) and the surname. *)
Record Person : Type := mkPerson {
  person_user : User;
  names : list string;
  surname : string
}.

(** The property [Person.name]. *)
Definition Person_name (self : Person) : string :=
  str_join " " (names self) +:+ " " +:+ surname self.

(** [Student.from_string] and [Tutor.from_string], as far as the person
    goes: [names[:-1]] are the names and [names[-1]] is the surname ([split]
    returns at least one piece). *)
Definition from_string (cls : user_class) (name username password separator : string)
  : result Person :=
  names ← str_split name separator;
  Return {| person_user := mkUser username password cls;
            names := removelast names;
            surname := List.last names "" |}.

(** The [student_course] table and the course numbers of the university.
    An enrolment object is a position in the table: [course.admissions] and
    [student.enrollments] are two views of the same rows. *)
Record Database : Type := mkDatabase {
  course_table : list string;
  student_course_table : list StudentCourse
}.

(** [university.courses], each with its [admissions]. *)
Definition university_of (db : Database) : University :=
  mkUniversity
    (map (λ c, mkCourse c
                 (List.filter (λ e, bool_decide (enrolled_course_number e = c))
                              (student_course_table db)))
         (course_table db)).

(** The student of that number with its [enrollments]. *)
Definition student_of (db : Database) (number : string) : Student :=
  mkStudent number
    (List.filter (λ e, bool_decide (enrolled_student_number e = number))
                 (student_course_table db)).

Section Callers.

Context {R : Type} `{Scalar R}.

(** [Student.rate_course(enrollment, rating, session, commit, reload_ratings)]
    for the student of number [self]; [enrollment.student is self] is the
    equality of the student numbers, which are unique in a university, and
    [commit] changes nothing of what is modelled.  The rating is written to
    the enrolment before the reload, so a reload that raises leaves it
    written: the result is the table and what the reload returned.  The
    first failure is for a position the table does not hold, which no
    Python reference is. *)
Definition rate_course (self : string) (enrollment : nat) (rating : Z)
    (reload : bool) (db : Database) (system : RecommendationSystem (R:=R))
  : result (Database * result (RecommendationSystem (R:=R))) :=
  _ ← py_assert (in_range rating 1 11) "Rating must be an integer in range [1, 10].";
  match student_course_table db !! enrollment with
  | None => Raise (AttributeError "no such enrollment")
  | Some e =>
      _ ← py_assert (bool_decide (enrolled_student_number e = self))
            "Cannot rate a course this student is not enrolled in.";
      let e' := {| enrolled_student_number := enrolled_student_number e;
                   enrolled_course_number := enrolled_course_number e;
                   course_rating := Some rating;
                   start_date := start_date e |} in
      let db' := {| course_table := course_table db;
                    student_course_table := <[enrollment := e']> (student_course_table db) |} in
      Return (db', if reload then reload_ratings system (university_of db')
                   else Return system)
  end.

End Callers.

(** ** The run of [demo.py], on integer scalars *)

Definition date_1 : date := mkDate 2020 2 13.
Definition date_2 : date := mkDate 2020 2 14.

Definition enrollment_1 : StudentCourse := mkStudentCourse "nr1" "ST104a" (Some 9) date_1.
Definition enrollment_2 : StudentCourse := mkStudentCourse "nr1" "MT1174" (Some 8) date_1.
Definition enrollment_3 : StudentCourse := mkStudentCourse "nr2" "MT1173" (Some 8) date_1.

Definition course_1 : Course := mkCourse "ST104a" [enrollment_1].
Definition course_2 : Course := mkCourse "ST104b" [].
Definition course_3 : Course := mkCourse "MT1174" [enrollment_2].
Definition course_4 : Course := mkCourse "MT1173" [enrollment_3].

Definition university_1 : University :=
  mkUniversity [course_1; course_2; course_3; course_4].

Definition student_1 : Student := mkStudent "nr1" [enrollment_1; enrollment_2].
Definition student_2 : Student := mkStudent "nr2" [enrollment_3].

(** A student who enrols in the three rated courses after the training
    run, and one who is registered and has no enrolment. *)
Definition student_3 : Student :=
  mkStudent "nr3" [mkStudentCourse "nr3" "ST104a" None date_2;
                   mkStudentCourse "nr3" "MT1174" None date_2;
                   mkStudentCourse "nr3" "MT1173" None date_2].
Definition student_4 : Student := mkStudent "nr4" [].

(** The same student enrolled twice in one course, at two start dates. *)
Definition university_twice : University :=
  mkUniversity [mkCourse "ST104a" [mkStudentCourse "nr1" "ST104a" (Some 9) date_1;
                                   mkStudentCourse "nr1" "ST104a" (Some 8) date_2]].

(** Enrolments, none of them rated. *)
Definition university_unrated : University :=
  mkUniversity [mkCourse "ST104a" [mkStudentCourse "nr1" "ST104a" None date_1]].

Definition draw_tens : nat → nat → Z := λ _ _, 10.

Definition system_0 : RecommendationSystem (R:=Z) := RecommendationSystem_init.

Definition system_reloaded : RecommendationSystem (R:=Z) :=
  Eval vm_compute in
    match reload_ratings system_0 university_1 with
    | Return s => s
    | Raise _ => system_0
    end.

(** After [train_model(regularization_parameter=0, epochs=1, learning_rate=0,
    number_factors=2)] on draws that are all 10. *)
Definition system_trained : RecommendationSystem (R:=Z) :=
  Eval vm_compute in
    match train_model system_reloaded 0 1 0 2 draw_tens draw_tens with
    | Return (s, _) => s
    | Raise _ => system_0
    end.

Definition system_unrated : RecommendationSystem (R:=Z) :=
  Eval vm_compute in
    match reload_ratings system_0 university_unrated with
    | Return s => s
    | Raise _ => system_0
    end.

Definition system_unrated_trained : RecommendationSystem (R:=Z) :=
  Eval vm_compute in
    match train_model system_unrated 1 2 1 1 draw_tens draw_tens with
    | Return (s, _) => s
    | Raise _ => system_0
    end.

(** The module is imported on one day and used on the next. *)
Definition clock_next_day : Clock := mkClock date_1 date_2.

Definition recommendation_1 : Recommendation (R:=Z) :=
  new_Recommendation clock_next_day student_1 (Some course_4) 10.

Definition rating_helpful : RecommendationRating :=
  {| rating_value := HELPFUL; date_added := date_2 |}.

Definition recommendation_1_rated : Recommendation (R:=Z) :=
  {| student := student_1; course := Some course_4; correctness_probability := 10;
     date_generated := date_1; rating := Some rating_helpful |}.

Definition session_0 : Session := mkSession [] [].
Definition session_1 : Session := mkSession [] [rating_helpful].

(** A second state of the university: [student_2] has enrolled in
    [course_2] and not rated it. *)
Definition enrollment_4 : StudentCourse := mkStudentCourse "nr2" "ST104b" None date_2.

Definition university_2 : University :=
  mkUniversity [course_1; mkCourse "ST104b" [enrollment_4]; course_3; course_4].

(** The trained system after a reload on that state, without a new
    training run. *)
Definition system_stale : RecommendationSystem (R:=Z) :=
  Eval vm_compute in
    match reload_ratings system_trained university_2 with
    | Return s => s
    | Raise _ => system_0
    end.

(** A reload on that state, then a training run. *)
Definition system_2_reloaded : RecommendationSystem (R:=Z) :=
  Eval vm_compute in
    match reload_ratings system_0 university_2 with
    | Return s => s
    | Raise _ => system_0
    end.

Definition system_2_trained : RecommendationSystem (R:=Z) :=
  Eval vm_compute in
    match train_model system_2_reloaded 1 1 1 2 draw_tens draw_tens with
    | Return (s, _) => s
    | Raise _ => system_0
    end.

(** Files out of step: a known rating for a course the matrix has no column
    of. *)
Definition system_out_of_step : RecommendationSystem (R:=Z) :=
  {| student_course_matrix_path := student_course_matrix_path system_reloaded;
     known_ratings_matrix_path := [("nr1", "ST104a", 9); ("nr1", "ST104b", 5)];
     model_parameters_path_Q := None;
     model_parameters_path_P := None;
     trained := false |}.

(** A university whose one student has a number made of digits. *)
Definition university_digit_student : University :=
  mkUniversity [mkCourse "ST104a" [mkStudentCourse "1" "ST104a" (Some 9) date_1]].

Definition system_digit_student : RecommendationSystem (R:=Z) :=
  Eval vm_compute in
    match reload_ratings system_0 university_digit_student with
    | Return s => s
    | Raise _ => system_0
    end.

(** A university whose courses have numbers made of digits. *)
Definition university_digit_courses : University :=
  mkUniversity [mkCourse "101" [mkStudentCourse "nr1" "101" (Some 9) date_1];
                mkCourse "102" [mkStudentCourse "nr2" "102" (Some 8) date_1]].

Definition student_5 : Student :=
  mkStudent "nr1" [mkStudentCourse "nr1" "101" (Some 9) date_1].

Definition system_digit_courses : RecommendationSystem (R:=Z) :=
  Eval vm_compute in
    match reload_ratings system_0 university_digit_courses with
    | Return s => s
    | Raise _ => system_0
    end.

Definition system_digit_courses_trained : RecommendationSystem (R:=Z) :=
  Eval vm_compute in
    match train_model system_digit_courses 0 1 0 2 draw_tens draw_tens with
    | Return (s, _) => s
    | Raise _ => system_0
    end.

(** The tables of the demonstration before any rating. *)
Definition database_1 : Database :=
  {| course_table := ["ST104a"; "ST104b"; "MT1174"; "MT1173"];
     student_course_table :=
       [mkStudentCourse "nr1" "ST104a" None date_1;
        mkStudentCourse "nr1" "MT1174" None date_1;
        mkStudentCourse "nr2" "MT1173" None date_1] |}.

Definition users_1 : list User :=
  [mkUser "uni1" "pw" UniversityClass;
   mkUser "st1" "pw" StudentClass;
   mkUser "st2" "pw" StudentClass].

(** * Properties *)

#[global] Instance Z_scalar_laws : ScalarLaws Z.
Proof. split; simpl; unfold id; intros; (lia || reflexivity). Qed.

(** ** Rows of a frame *)

Section Rows.

Context {K : Type} `{EqDecision K} {V : Type}.
Implicit Types (rs : list (K * V)) (k : K) (v : V).

Lemma lookup_row_Some_elem rs k v :
  lookup_row k rs = Some v → (k, v) ∈ rs.
Proof.
  induction rs as [|[k' w] rs IH]; simpl; [done|].
  case_decide; intros Hl.
  - simplify_eq. apply list_elem_of_here.
  - apply list_elem_of_further. auto.
Qed.

Lemma lookup_row_is_Some rs k :
  is_Some (lookup_row k rs) ↔ k ∈ rs.*1.
Proof.
  induction rs as [|[k' w] rs IH]; simpl.
  - split; [intros [? ?]; done | intros Hin; inversion Hin].
  - case_decide; subst.
    + split; [intros _; apply list_elem_of_here | eauto].
    + rewrite IH. split; [apply list_elem_of_further|].
      intros Hin. apply elem_of_cons in Hin as [?|?]; [congruence|done].
Qed.

Lemma lookup_row_None rs k :
  lookup_row k rs = None ↔ k ∉ rs.*1.
Proof.
  rewrite <- lookup_row_is_Some, eq_None_not_Some. done.
Qed.


Lemma lookup_assign_row_ne rs k k' v :
  k ≠ k' → lookup_row k' (assign_row k v rs) = lookup_row k' rs.
Proof.
  intros Hne. induction rs as [|[k0 w] rs IH]; simpl.
  - case_decide; [congruence|done].
  - destruct (decide (k0 = k)); simpl.
    + subst. case_decide; [congruence|done].
    + case_decide; [done|apply IH].
Qed.

Lemma assign_row_index rs k v :
  k ∈ rs.*1 → (assign_row k v rs).*1 = rs.*1.
Proof.
  induction rs as [|[k0 w] rs IH]; simpl; intros Hin.
  - inversion Hin.
  - case_decide; simpl; [done|]. f_equal. apply IH.
    apply elem_of_cons in Hin as [?|?]; [congruence|done].
Qed.

Lemma assign_row_elem rs k v x :
  x ∈ assign_row k v rs → x = (k, v) ∨ x ∈ rs.
Proof.
  induction rs as [|[k0 w] rs IH]; simpl.
  - intros Hin. apply list_elem_of_singleton in Hin. auto.
  - case_decide; intros Hin; apply elem_of_cons in Hin as [?|Hin].
    + subst. auto.
    + right. by apply list_elem_of_further.
    + subst. right. apply list_elem_of_here.
    + destruct (IH Hin); [auto|]. right. by apply list_elem_of_further.
Qed.

End Rows.

(** ** Results and loops *)

Lemma bind_Return {A B} (f : A → result B) (a : A) : Return a ≫= f = f a.
Proof. reflexivity. Qed.

Lemma bind_Return_inv {A B} (f : A → result B) (m : result A) (b : B) :
  m ≫= f = Return b → ∃ a, m = Return a ∧ f a = Return b.
Proof. destruct m as [a|e]; simpl; [eauto|discriminate]. Qed.

Lemma for_each_cons {A B} (body : A → B → result A) x xs acc :
  for_each body (x :: xs) acc = body acc x ≫= for_each body xs.
Proof. reflexivity. Qed.

Lemma for_each_app {A B} (body : A → B → result A) xs ys acc :
  for_each body (xs ++ ys) acc = for_each body xs acc ≫= for_each body ys.
Proof.
  revert acc. induction xs as [|x xs IH]; intros acc; [done|].
  rewrite <- app_comm_cons, !for_each_cons.
  destruct (body acc x) as [acc'|e]; simpl; [apply IH|done].
Qed.

Section Training.

Context {R : Type} `{Scalar R}.
Implicit Types (Q P : DataFrame R) (QP : factors (R:=R)) (q p : list R).
Implicit Types (known : list known_line).

Lemma loc_Return {A} (df : DataFrame A) (label : string) v :
  loc label df = Return v ↔ lookup_row (LStr label) (rows df) = Some v.
Proof. unfold loc. destruct (lookup_row _ _); split; congruence. Qed.


Lemma loc_set_loc_ne {A} (df : DataFrame A) label label' v :
  label ≠ label' → loc label' (set_loc label v df) = loc label' df.
Proof.
  intros. unfold loc, set_loc; simpl.
  rewrite lookup_assign_row_ne; [done|congruence].
Qed.

Lemma sgd_step_Return (lam eta : R) Q P (m i : string) (r : Z) q p :
  loc i Q = Return q →
  loc m P = Return p →
  let eps := (of_Z 2 * (of_Z r - dot q p))%S in
  sgd_step lam eta (Q, P) (m, i, r)
  = Return (set_loc i (vadd q (scale eta (vsub (scale eps p)
                                               (scale (of_Z 2 * lam)%S q)))) Q,
            set_loc m (vadd p (scale eta (vsub (scale eps q)
                                               (scale (of_Z 2 * lam)%S p)))) P).
Proof.
  intros HQ HP. unfold sgd_step. rewrite HQ; simpl. rewrite HP; simpl. reflexivity.
Qed.


(** *** The update loop keeps the shape of the matrices *)

Lemma length_scale (a : R) (v : list R) : length (scale a v) = length v.
Proof. apply length_map. Qed.

Lemma length_update (eta c eps : R) q p :
  length q = length p →
  length (vadd q (scale eta (vsub (scale eps p) (scale c q)))) = length q.
Proof.
  intros Hlen. unfold vadd, vsub.
  rewrite length_zip_with, length_scale, length_zip_with, !length_scale. lia.
Qed.

Lemma rectangular_set_loc k Q label v :
  rectangular k Q → length v = k → rectangular k (set_loc label v Q).
Proof.
  intros [Hc Hr] Hv. split; [done|]. simpl. intros r Hin.
  apply assign_row_elem in Hin as [->|Hin]; [done|auto].
Qed.

Lemma index_set_loc {A} (df : DataFrame A) (label : string) v :
  LStr label ∈ index df → index (set_loc label v df) = index df.
Proof. apply assign_row_index. Qed.

Lemma loc_in_index {A} (df : DataFrame A) (label : string) :
  LStr label ∈ index df → ∃ v, loc label df = Return v ∧ (LStr label, v) ∈ rows df.
Proof.
  intros Hin. apply lookup_row_is_Some in Hin as [v Hv].
  exists v. split; [by apply loc_Return | by apply lookup_row_Some_elem].
Qed.

Lemma sgd_step_fitting (lam eta : R) k QP (l : known_line) :
  rectangular k QP.1 → rectangular k QP.2 →
  LStr l.1.2 ∈ index QP.1 → LStr l.1.1 ∈ index QP.2 →
  ∃ QP', sgd_step lam eta QP l = Return QP'
         ∧ same_index QP QP' ∧ rectangular k QP'.1 ∧ rectangular k QP'.2.
Proof.
  destruct QP as [Q P], l as [[m i] r]; simpl.
  intros HQ HP Hi Hm.
  destruct (loc_in_index _ _ Hi) as (q & Hq & Hqin).
  destruct (loc_in_index _ _ Hm) as (p & Hp & Hpin).
  pose proof (sgd_step_Return lam eta Q P m i r q p Hq Hp) as Hstep.
  assert (length q = k) as Hlq by (apply (proj2 HQ) in Hqin; done).
  assert (length p = k) as Hlp by (apply (proj2 HP) in Hpin; done).
  eexists. split; [exact Hstep|]. split; [|split].
  - split; simpl; by apply index_set_loc.
  - simpl. apply rectangular_set_loc; [done|].
    rewrite length_update; [done|congruence].
  - simpl. apply rectangular_set_loc; [done|].
    rewrite length_update; [done|congruence].
Qed.

Lemma sgd_epoch_fitting (lam eta : R) k known QP :
  fitting k known QP →
  ∃ QP', sgd_epoch lam eta known QP = Return QP'
         ∧ same_index QP QP' ∧ fitting k known QP'.
Proof.
  intros (HQ & HP & Hcov).
  cut (∀ ls QP0, (∀ l, l ∈ ls → l ∈ known) →
         same_index QP QP0 → rectangular k QP0.1 → rectangular k QP0.2 →
         ∃ QP', for_each (sgd_step lam eta) ls QP0 = Return QP'
                ∧ same_index QP QP' ∧ rectangular k QP'.1 ∧ rectangular k QP'.2).
  { intros Hcut.
    destruct (Hcut known QP) as (QP' & Hrun & Hsame & HQ' & HP'); try done.
    exists QP'. split; [done|]. split; [done|].
    split; [done|]. split; [done|].
    intros l Hl. destruct Hsame as [-> ->]. by apply Hcov. }
  induction ls as [|l ls IH]; intros QP0 Hsub Hsame HQ0 HP0.
  - exists QP0. simpl. done.
  - assert (l ∈ known) as Hl by (apply Hsub, list_elem_of_here).
    destruct (Hcov l Hl) as [Hi Hm].
    destruct Hsame as [HsQ HsP].
    destruct (sgd_step_fitting lam eta k QP0 l) as (QP1 & Hstep & [H1 H2] & HQ1 & HP1);
      [done|done|by rewrite HsQ|by rewrite HsP|].
    rewrite for_each_cons, Hstep. simpl.
    apply IH; [|split; congruence|done|done].
    intros l' Hl'. by apply Hsub, list_elem_of_further.
Qed.

(** *** Squares that stay in range *)

Lemma map_result_Return {A B} (f : A → result B) (g : A → B) (l : list A) :
  (∀ x, x ∈ l → f x = Return (g x)) → map_result f l = Return (map g l).
Proof.
  induction l as [|x l IH]; intros Hf; simpl; [done|].
  rewrite (Hf x) by apply list_elem_of_here. simpl.
  rewrite IH; [done|]. intros y Hy. by apply Hf, list_elem_of_further.
Qed.

Lemma column_elem (df : DataFrame R) j x :
  x ∈ column j df → ∃ r, r ∈ rows df ∧ x ∈ r.2.
Proof.
  unfold column. intros Hin. apply list_elem_of_omap in Hin as (r & Hr & Hx).
  exists r. split; [done|]. by eapply list_elem_of_lookup_2.
Qed.

Lemma pow2_in_range (x : R) : py_pow2 x = Some (square x) → pow2 x = Return (square x).
Proof. unfold pow2. by intros ->. Qed.

Lemma sum_of_squares_in_range (df : DataFrame R) :
  squares_in_range df → sum_of_squares df = Return (squares_by_column df).
Proof.
  intros Hin. unfold sum_of_squares, apply_columns, squares_by_column.
  rewrite (map_result_Return _ (λ j, py_sum (map square (column j df)))); [done|].
  intros j _.
  rewrite (map_result_Return pow2 square); [done|].
  intros x Hx. apply column_elem in Hx as (r & Hr & Hx).
  apply pow2_in_range. by eapply Hin.
Qed.

Lemma epoch_error_empty (lam : R) QP :
  squares_in_range QP.1 → squares_in_range QP.2 →
  epoch_error lam [] QP = Return (regularization_only lam QP).
Proof.
  intros HQ HP. unfold epoch_error. simpl.
  rewrite (sum_of_squares_in_range _ HQ). simpl.
  rewrite (sum_of_squares_in_range _ HP). reflexivity.
Qed.

End Training.

(** ** The error of an epoch, in exact arithmetic *)

Section ExactArithmetic.

Context {R : Type} `{ScalarLaws R}.
Implicit Types (Q P : DataFrame R) (QP : factors (R:=R)) (q p : list R).

Lemma radd_0_r (x : R) : (x + of_Z 0)%S = x.
Proof. rewrite radd_comm. apply radd_0_l. Qed.

Lemma fold_left_radd (l : list R) (a : R) :
  fold_left radd l a = (a + rsum l)%S.
Proof.
  revert a. induction l as [|x l IH]; intros a; simpl.
  - by rewrite radd_0_r.
  - by rewrite IH, radd_assoc.
Qed.

Lemma py_sum_rsum (l : list R) : py_sum l = rsum l.
Proof. unfold py_sum. by rewrite fold_left_radd, radd_0_l. Qed.

Lemma dot_inner q p : dot q p = inner q p.
Proof. apply py_sum_rsum. Qed.

Lemma rsum_map_add {A} (f g : A → R) (l : list A) :
  rsum (map (λ a, (f a + g a)%S) l) = (rsum (map f l) + rsum (map g l))%S.
Proof.
  induction l as [|a l IH]; simpl.
  - by rewrite radd_0_l.
  - rewrite IH, !radd_assoc. f_equal.
    rewrite <- !radd_assoc. f_equal. apply radd_comm.
Qed.

Lemma rsum_map_zero {A} (l : list A) :
  rsum (map (λ _, of_Z 0) l) = of_Z 0.
Proof. induction l as [|a l IH]; simpl; [done|]. by rewrite IH, radd_0_l. Qed.

Lemma map_seq_nth {B} (f : R → B) (d : R) (v : list R) :
  map (λ j, f (nth j v d)) (seq 0 (length v)) = map f v.
Proof.
  induction v as [|x v IH]; simpl; [done|]. f_equal.
  rewrite <- seq_shift, map_map. exact IH.
Qed.

(** Summing the squares column by column or row by row. *)
Lemma sum_columns_rows (rs : list (label * list R)) (k : nat) :
  (∀ r, r ∈ rs → length r.2 = k) →
  rsum (map (λ j, rsum (map square (omap (λ r : label * list R, r.2 !! j) rs)))
            (seq 0 k))
  = rsum (map (λ r : label * list R, norm2 r.2) rs).
Proof.
  induction rs as [|r rs IH]; intros Hlen.
  - simpl. apply rsum_map_zero.
  - assert (length r.2 = k) as Hr by apply Hlen, list_elem_of_here.
    rewrite (map_ext_in _
      (λ j, (square (nth j r.2 (of_Z 0))
             + rsum (map square (omap (λ r : label * list R, r.2 !! j) rs)))%S)).
    + rewrite rsum_map_add. simpl. f_equal.
      * rewrite <- Hr. unfold norm2. f_equal. apply map_seq_nth.
      * apply IH. intros r' Hr'. by apply Hlen, list_elem_of_further.
    + intros j Hj. apply in_seq in Hj. simpl.
      destruct (nth_lookup_or_length r.2 j (of_Z 0)) as [->|Hge]; [done|lia].
Qed.

Lemma squares_in_range_exact (df : DataFrame R) : squares_in_range df.
Proof. intros r x _ _. apply py_pow2_exact. Qed.

Lemma sum_of_squares_rows k (df : DataFrame R) :
  rectangular k df →
  sum_of_squares df
  = Return (rsum (map (λ r : label * list R, norm2 r.2) (rows df))).
Proof.
  intros [Hc Hr].
  rewrite (sum_of_squares_in_range df (squares_in_range_exact df)). f_equal.
  unfold squares_by_column, column.
  rewrite py_sum_rsum, Hc.
  rewrite (map_ext _ (λ j, rsum (map square
             (omap (λ r : label * list R, r.2 !! j) (rows df))))).
  - by apply sum_columns_rows.
  - intros j. apply py_sum_rsum.
Qed.

Lemma row_of_loc (df : DataFrame R) label v :
  loc label df = Return v → row_of label df = v.
Proof. intros Hl. apply loc_Return in Hl. unfold row_of. by rewrite Hl. Qed.

Lemma error_loop (known ls : list known_line) QP (E : R) :
  covers known QP → (∀ l, l ∈ ls → l ∈ known) →
  for_each (error_step QP) ls E
  = Return (E + rsum (map (λ l : known_line,
                square (of_Z l.2 - inner (row_of l.1.2 QP.1) (row_of l.1.1 QP.2)))
             ls))%S.
Proof.
  intros Hcov. revert E. induction ls as [|l ls IH]; intros E Hsub.
  - simpl. by rewrite radd_0_r.
  - destruct (Hcov l) as [Hi Hm]; [apply Hsub, list_elem_of_here|].
    destruct QP as [Q P], l as [[m i] r]; simpl in *.
    destruct (loc_in_index _ _ Hi) as (q & Hq & _).
    destruct (loc_in_index _ _ Hm) as (p & Hp & _).
    rewrite Hq; simpl. rewrite Hp; simpl.
    rewrite IH; [|intros l' Hl'; by apply Hsub, list_elem_of_further].
    simpl. rewrite (row_of_loc _ _ _ Hq), (row_of_loc _ _ _ Hp), dot_inner.
    by rewrite radd_assoc.
Qed.

Lemma epoch_error_spec (lam : R) k known QP :
  fitting k known QP →
  epoch_error lam known QP = Return (spec_error lam known QP).
Proof.
  intros (HQ & HP & Hcov). unfold epoch_error.
  rewrite (error_loop known known QP (of_Z 0) Hcov); [|done]. simpl.
  rewrite (sum_of_squares_rows k _ HQ). simpl.
  rewrite (sum_of_squares_rows k _ HP). simpl.
  by rewrite radd_0_l.
Qed.

End ExactArithmetic.

(** ** RatingsStore *)

Section Reload.

Context {R : Type} `{Scalar R}.
Implicit Types (self : RecommendationSystem (R:=R)) (university : University).

Lemma elem_of_insert_label (x y : string) (l : list string) :
  x ∈ insert_label y l ↔ x = y ∨ x ∈ l.
Proof.
  induction l as [|z l IH]; simpl.
  - rewrite list_elem_of_singleton. split; [auto|]. intros [?|Hin]; [done|inversion Hin].
  - destruct (String.compare y z) eqn:Hc.
    + apply String.compare_eq_iff in Hc as ->.
      rewrite elem_of_cons. tauto.
    + rewrite elem_of_cons. done.
    + rewrite !elem_of_cons, IH. tauto.
Qed.

Lemma elem_of_sorted_labels (x : string) (l : list string) :
  x ∈ sorted_labels l ↔ x ∈ l.
Proof.
  induction l as [|y l IH]; simpl; [done|].
  by rewrite elem_of_insert_label, IH, elem_of_cons.
Qed.

Lemma index_reshape (long_df : list long_row) :
  index (reshape long_df) = LStr <$> sorted_labels (long_df.*1.*1).
Proof.
  unfold index, reshape; simpl. generalize (sorted_labels long_df.*1.*1).
  intros l. induction l as [|x l IH]; simpl; [done|]. by f_equal.
Qed.

(** What [read_csv] makes of the labels a frame was written with. *)
Lemma is_letter_not_digit c : is_letter c = true → is_digit c = false.
Proof.
  unfold is_letter, is_digit. generalize (Ascii.N_of_ascii c). intros n Hl.
  apply andb_false_iff.
  apply orb_true_iff in Hl as [Hl|Hl]; apply andb_true_iff in Hl as [H1 H2];
    apply N.leb_le in H1, H2; right; apply N.leb_gt; lia.
Qed.

Lemma text_label_not_digits (t : string) : text_label t = true → is_digits t = false.
Proof.
  destruct t as [|c t]; simpl; [done|]. intros Ht.
  apply andb_true_iff in Ht as [Hc _]. unfold is_digits. simpl.
  by rewrite (is_letter_not_digit c Hc).
Qed.

Lemma infer_index_text (texts : list string) :
  Forall (λ t, text_label t = true) texts → infer_index texts = LStr <$> texts.
Proof.
  intros Ht. unfold infer_index. destruct Ht as [|t texts Ht Hts]; [done|].
  simpl. by rewrite (text_label_not_digits t Ht).
Qed.

Lemma infer_index_length (texts : list string) :
  length (infer_index texts) = length texts.
Proof. unfold infer_index. case_match; apply length_fmap. Qed.

Lemma read_csv_to_csv_rows {A} (df : DataFrame A) :
  (records (to_csv df)).*1 = label_text <$> index df
  ∧ (records (to_csv df)).*2 = (rows df).*2.
Proof.
  unfold index; simpl. split.
  - rewrite <- !list_fmap_compose. by apply list_fmap_ext.
  - rewrite <- !list_fmap_compose. by apply list_fmap_ext.
Qed.

(** A frame whose labels are text is read back with the labels it was
    written with; its column labels are read as strings. *)
Lemma read_csv_to_csv_text {A} (df : DataFrame A) (name : string) (texts : list string) :
  index_name df = Some name →
  index df = LStr <$> texts →
  Forall (λ t, text_label t = true) texts →
  read_csv name (to_csv df)
  = Return {| index_name := Some name; columns_name := None;
              columns_dtype := Object; columns := columns df;
              rows := rows df |}.
Proof.
  intros Hname Hidx Ht. unfold read_csv.
  destruct (read_csv_to_csv_rows df) as [H1 H2].
  rewrite H1, H2, Hidx.
  simpl. rewrite Hname. simpl. case_decide; [|done].
  do 2 f_equal.
  rewrite <- list_fmap_compose.
  rewrite (list_fmap_ext (label_text ∘ LStr) id texts) by done.
  rewrite list_fmap_id, (infer_index_text _ Ht), <- Hidx.
  apply zip_fst_snd.
Qed.

Lemma pivot_Return (long_df : list long_row) scm :
  pivot long_df = Return scm ↔ NoDup (long_df.*1) ∧ scm = reshape long_df.
Proof.
  unfold pivot. case_decide; split.
  - by intros [= <-].
  - by intros [_ ->].
  - discriminate.
  - by intros [? _].
Qed.

Lemma reload_ratings_Return self university self' :
  reload_ratings self university = Return self' ↔
  NoDup (all_admissions university).*1
  ∧ self' = {| student_course_matrix_path := to_csv (reshape (all_admissions university));
               known_ratings_matrix_path := dropna (all_admissions university);
               model_parameters_path_Q := model_parameters_path_Q self;
               model_parameters_path_P := model_parameters_path_P self;
               trained := trained self |}.
Proof.
  unfold reload_ratings, pivot. case_decide; simpl; split.
  - by intros [= <-].
  - by intros [_ ->].
  - discriminate.
  - by intros [? _].
Qed.

(** The matrix a reload wrote is read back with its columns, and with its
    index as [read_csv] infers it. *)
Lemma student_course_matrix_written self (long_df : list long_row) :
  student_course_matrix_path self = to_csv (reshape long_df) →
  ∃ scm, student_course_matrix self = Return (Some scm)
         ∧ columns scm = columns (reshape long_df)
         ∧ columns_dtype scm = Object
         ∧ index_name scm = Some "student_number"
         ∧ columns_name scm = Some "course_number"
         ∧ index scm = infer_index (sorted_labels (long_df.*1.*1))
         ∧ (rows scm).*2 = (rows (reshape long_df)).*2.
Proof.
  intros Hf. unfold student_course_matrix, read_csv. rewrite Hf.
  destruct (read_csv_to_csv_rows (reshape long_df)) as [H1 H2].
  rewrite H1, H2, index_reshape, <- list_fmap_compose.
  rewrite (list_fmap_ext (label_text ∘ LStr) id) by done.
  rewrite list_fmap_id. simpl.
  eexists. split; [reflexivity|]. simpl. repeat split.
  - unfold index; simpl. apply fst_zip.
    rewrite infer_index_length, !length_fmap. done.
  - apply snd_zip. rewrite infer_index_length, !length_fmap. done.
Qed.

(** When the student numbers are text, it is the matrix that was
    written. *)
Lemma student_course_matrix_reshape self (long_df : list long_row) :
  student_course_matrix_path self = to_csv (reshape long_df) →
  Forall (λ t, text_label t = true) (long_df.*1.*1) →
  student_course_matrix self = Return (Some (reshape long_df)).
Proof.
  intros Hf Ht. unfold student_course_matrix. rewrite Hf.
  rewrite (read_csv_to_csv_text _ "student_number" (sorted_labels (long_df.*1.*1)));
    [reflexivity|reflexivity|apply index_reshape|].
  apply Forall_forall. intros t Hin. rewrite elem_of_sorted_labels in Hin.
  by eapply Forall_forall in Ht.
Qed.

Lemma student_course_matrix_Object self scm :
  student_course_matrix self = Return (Some scm) → columns_dtype scm = Object.
Proof.
  unfold student_course_matrix, read_csv.
  destruct (header _) as [|h cols]; [done|].
  case_decide; [|done]. by intros [= <-].
Qed.

Lemma dropna_covered (long_df : list long_row) (l : known_line) :
  l ∈ dropna long_df →
  LStr l.1.1 ∈ index (reshape long_df) ∧ l.1.2 ∈ columns (reshape long_df).
Proof.
  intros Hl. apply list_elem_of_omap in Hl as ([[s c] [v|]] & Hin & Heq);
    simpl in Heq; [|done]. simplify_eq. simpl.
  rewrite index_reshape. simpl. rewrite !elem_of_sorted_labels. split.
  - apply list_elem_of_fmap_2, elem_of_sorted_labels.
    apply (list_elem_of_fmap_2 fst (long_df.*1) (s, c)).
    apply (list_elem_of_fmap_2 fst long_df (s, c, Some v)), Hin.
  - apply (list_elem_of_fmap_2 snd (long_df.*1) (s, c)).
    apply (list_elem_of_fmap_2 fst long_df (s, c, Some v)), Hin.
Qed.

End Reload.

(** ** Trainer *)

Section Fit.

Context {R : Type} `{Scalar R}.
Implicit Types (self : RecommendationSystem (R:=R)) (QP : factors (R:=R)).
Implicit Types (known : list known_line).

Lemma for_each_invariant {A B} (I : A → Prop) (body : A → B → result A) xs acc acc' :
  (∀ a x a', I a → body a x = Return a' → I a') →
  I acc → for_each body xs acc = Return acc' → I acc'.
Proof.
  intros Hbody. revert acc. induction xs as [|x xs IH]; intros acc HI; simpl.
  - by intros [= <-].
  - intros Hrun. apply bind_Return_inv in Hrun as (a & Hstep & Hrest). eauto.
Qed.

Lemma uniform_rows (draw : nat → nat → R) (n k : nat) :
  length (uniform draw n k) = n ∧ ∀ v, v ∈ uniform draw n k → length v = k.
Proof.
  unfold uniform. split.
  - by rewrite length_map, length_seq.
  - intros v Hv. apply list_elem_of_fmap in Hv as (i & -> & _).
    by rewrite length_map, length_seq.
Qed.

Lemma new_frame_rectangular (draw : nat → nat → R) axis_name
    (labels : list label) n k :
  length labels = n →
  rectangular k (new_frame (uniform draw n k) axis_name labels k)
  ∧ index (new_frame (uniform draw n k) axis_name labels k) = labels.
Proof.
  intros Hn. destruct (uniform_rows draw n k) as [Hlen Hk].
  split; [split|]; simpl.
  - by rewrite length_fmap, length_seq.
  - intros [l v] Hin. apply elem_of_zip_r in Hin. simpl. auto.
  - unfold index; simpl. apply fst_zip. lia.
Qed.

Lemma initial_factors_fitting (scm : DataFrame (option Z)) k
    (draw_Q draw_P : nat → nat → R) known :
  columns_dtype scm = Object →
  (∀ l, l ∈ known → LStr l.1.1 ∈ index scm ∧ l.1.2 ∈ columns scm) →
  fitting k known (initial_factors scm k draw_Q draw_P).
Proof.
  intros Hobj Hcov. unfold initial_factors, shape.
  assert (columns_index scm = LStr <$> columns scm) as Hci
    by (unfold columns_index; by rewrite Hobj).
  destruct (new_frame_rectangular draw_Q (columns_name scm) (columns_index scm)
              (length (columns scm)) k) as [HQ HiQ];
    [rewrite Hci; apply length_fmap|].
  destruct (new_frame_rectangular draw_P (index_name scm) (index scm)
              (length (rows scm)) k) as [HP HiP];
    [unfold index; apply length_fmap|].
  split; [exact HQ|]. split; [exact HP|].
  intros l Hl. destruct (Hcov l Hl) as [Hm Hi]. simpl.
  rewrite HiQ, Hci. split; [by apply list_elem_of_fmap_2|]. by rewrite HiP.
Qed.

Lemma epoch_body_unfold (lam eta : R) known QP (errs : list R) (epoch : nat) :
  epoch_body lam eta known (QP, errs) epoch
  = sgd_epoch lam eta known QP ≫= λ QP',
      epoch_error lam known QP' ≫= λ E, Return (QP', errs ++ [E]).
Proof. reflexivity. Qed.

Lemma fit_unfold self lam epochs eta number_factors draw_Q draw_P scm :
  student_course_matrix self = Return (Some scm) →
  0 < number_factors →
  fit self lam epochs eta number_factors draw_Q draw_P
  = for_each (epoch_body lam eta (known_ratings_matrix_path self))
             (seq 0 (Z.to_nat epochs))
             (initial_factors scm (Z.to_nat number_factors) draw_Q draw_P, []).
Proof.
  intros Hscm Hk. unfold fit. rewrite Hscm. simpl.
  destruct (decide (number_factors = 0)); [lia|]. simpl.
  destruct (decide (number_factors < 0)); [lia|]. reflexivity.
Qed.

End Fit.

Section FitExact.

Context {R : Type} `{ScalarLaws R}.
Implicit Types (self : RecommendationSystem (R:=R)) (QP : factors (R:=R)).
Implicit Types (known : list known_line).

Lemma epochs_loop (lam eta : R) k known (n : nat) :
  ∀ (a : nat) QP (errs : list R),
    fitting k known QP →
    ∃ QP' new,
      for_each (epoch_body lam eta known) (seq a n) (QP, errs)
      = Return (QP', errs ++ new)
      ∧ length new = n
      ∧ ∀ e, (e < n)%nat →
          ∃ QPe, after_epochs lam eta known (S e) QP = Return QPe
                 ∧ new !! e = Some (spec_error lam known QPe).
Proof.
  induction n as [|n IH]; intros a QP errs Hfit.
  - exists QP, []. simpl. rewrite app_nil_r. split; [done|]. split; [done|lia].
  - destruct (sgd_epoch_fitting lam eta k known QP Hfit) as (QP1 & Hep & _ & Hfit1).
    pose proof (epoch_error_spec lam k known QP1 Hfit1) as Herr.
    destruct (IH (S a) QP1 (errs ++ [spec_error lam known QP1]) Hfit1)
      as (QP' & new & Hrun & Hlen & Hnew).
    exists QP', (spec_error lam known QP1 :: new).
    split; [|split].
    + simpl seq. rewrite for_each_cons, epoch_body_unfold.
      rewrite Hep; simpl. rewrite Herr; simpl.
      rewrite Hrun. by rewrite <- app_assoc.
    + simpl. by rewrite Hlen.
    + intros [|e] He.
      * exists QP1. simpl. by rewrite Hep.
      * destruct (Hnew e) as (QPe & Haft & Hlook); [lia|].
        exists QPe. split; [|done].
        change (after_epochs lam eta known (S (S e)) QP)
          with (sgd_epoch lam eta known QP ≫= after_epochs lam eta known (S e)).
        by rewrite Hep.
Qed.

Lemma train_model_trace self lam epochs eta number_factors draw_Q draw_P scm :
  student_course_matrix self = Return (Some scm) →
  (∀ l, l ∈ known_ratings_matrix_path self →
        LStr l.1.1 ∈ index scm ∧ l.1.2 ∈ columns scm) →
  0 < number_factors →
  ∃ self' errors,
    train_model self lam epochs eta number_factors draw_Q draw_P
    = Return (self', errors)
    ∧ length errors = Z.to_nat epochs
    ∧ ∀ e, (e < Z.to_nat epochs)%nat →
        ∃ QPe,
          after_epochs lam eta (known_ratings_matrix_path self) (S e)
            (initial_factors scm (Z.to_nat number_factors) draw_Q draw_P)
          = Return QPe
          ∧ errors !! e = Some (spec_error lam (known_ratings_matrix_path self) QPe).
Proof.
  intros Hscm Hcov Hk.
  pose proof (initial_factors_fitting scm (Z.to_nat number_factors)
                draw_Q draw_P _ (student_course_matrix_Object _ _ Hscm) Hcov) as Hfit.
  destruct (epochs_loop lam eta _ _ (Z.to_nat epochs) 0%nat _ [] Hfit)
    as (QP' & new & Hrun & Hlen & Hnew).
  unfold train_model. rewrite (fit_unfold _ _ _ _ _ _ _ scm Hscm Hk), Hrun.
  simpl. eauto.
Qed.

(** In exact arithmetic, and when the student numbers are text: on the
    views written by a reload whose known-ratings set is not empty, and for
    a positive number of epochs (and of factors), training returns an error
    trace of exactly that many entries; the entry of an epoch is
    Σ (r − Q[i]·P[m])² + λ·Σ_i‖Q[i]‖² + λ·Σ_m‖P[m]‖² on the matrices as they
    stand after that epoch's updates, the last two sums ranging over every
    row of Q and of P. *)
Lemma train_model_error_trace self0 university self
    (lam : R) (epochs : Z) (eta : R) (number_factors : Z) draw_Q draw_P :
  reload_ratings self0 university = Return self →
  Forall (λ t, text_label t = true) (all_admissions university).*1.*1 →
  known_ratings_matrix_path self ≠ [] →
  0 < epochs →
  0 < number_factors →
  ∃ self' errors scm,
    train_model self lam epochs eta number_factors draw_Q draw_P
    = Return (self', errors)
    ∧ Z.of_nat (length errors) = epochs
    ∧ student_course_matrix self = Return (Some scm)
    ∧ ∀ e, (e < length errors)%nat →
        ∃ QPe,
          after_epochs lam eta (known_ratings_matrix_path self) (S e)
            (initial_factors scm (Z.to_nat number_factors) draw_Q draw_P)
          = Return QPe
          ∧ errors !! e = Some (spec_error lam (known_ratings_matrix_path self) QPe).
Proof.
  intros Hreload Htext _ Hepochs Hk.
  apply reload_ratings_Return in Hreload as [_ ->].
  set (long_df := all_admissions university).
  set (self := {| student_course_matrix_path := to_csv (reshape long_df) |}).
  assert (student_course_matrix self = Return (Some (reshape long_df))) as Hscm
    by (by apply student_course_matrix_reshape).
  destruct (train_model_trace self lam epochs eta number_factors draw_Q draw_P
              (reshape long_df) Hscm) as (self' & errors & Hrun & Hlen & Hnew);
    [intros l Hl; by apply dropna_covered|done|].
  exists self', errors, (reshape long_df).
  split; [done|]. split; [lia|]. split; [done|].
  intros e He. apply Hnew. lia.
Qed.

End FitExact.

Section Persistence.

Context {R : Type} `{Scalar R}.
Implicit Types (self : RecommendationSystem (R:=R)) (QP : factors (R:=R)).
Implicit Types (known : list known_line).

Lemma epochs_loop_empty (lam eta : R) (n : nat) QP :
  squares_in_range QP.1 → squares_in_range QP.2 →
  ∀ (a : nat) (errs : list R),
    for_each (epoch_body lam eta []) (seq a n) (QP, errs)
    = Return (QP, errs ++ replicate n (regularization_only lam QP)).
Proof.
  intros HQ HP. induction n as [|n IH]; intros a errs.
  - simpl. by rewrite app_nil_r.
  - simpl seq. rewrite for_each_cons, epoch_body_unfold. simpl.
    rewrite (epoch_error_empty lam QP HQ HP). simpl.
    rewrite IH. by rewrite <- app_assoc.
Qed.

Lemma new_frame_in_range (draw : nat → nat → R) axis_name labels n k :
  (∀ i j, py_pow2 (draw i j) = Some (square (draw i j))) →
  squares_in_range (new_frame (uniform draw n k) axis_name labels k).
Proof.
  intros Hdraw [l v] x Hin Hx. simpl in *.
  apply elem_of_zip_r in Hin. unfold uniform in Hin.
  apply list_elem_of_fmap in Hin as (i & -> & _).
  apply list_elem_of_fmap in Hx as (j & -> & _). apply Hdraw.
Qed.

(** C4 (as the code has it). On the views written by a reload whose
    known-ratings set is empty, training with a positive number of factors,
    from draws whose squares are in range, does not fail: it goes through
    its epochs, each with the regularization terms of the initial matrices
    as its error, marks the model trained and writes the initial matrices
    to the parameter files. *)
Theorem train_model_empty_known self0 university self
    (lam : R) (epochs : Z) (eta : R) (number_factors : Z) draw_Q draw_P :
  reload_ratings self0 university = Return self →
  known_ratings_matrix_path self = [] →
  0 < number_factors →
  (∀ i j, py_pow2 (draw_Q i j) = Some (square (draw_Q i j))) →
  (∀ i j, py_pow2 (draw_P i j) = Some (square (draw_P i j))) →
  ∃ self' scm,
    student_course_matrix self = Return (Some scm)
    ∧ let QP0 := initial_factors scm (Z.to_nat number_factors) draw_Q draw_P in
      train_model self lam epochs eta number_factors draw_Q draw_P
      = Return (self', replicate (Z.to_nat epochs) (regularization_only lam QP0))
      ∧ trained self' = true
      ∧ model_parameters_path_Q self' = Some (to_csv QP0.1)
      ∧ model_parameters_path_P self' = Some (to_csv QP0.2).
Proof.
  intros Hreload Hknown Hk HdQ HdP.
  apply reload_ratings_Return in Hreload as [_ Hself].
  destruct (student_course_matrix_written self (all_admissions university))
    as (scm & Hscm & _); [by rewrite Hself|].
  eexists _, scm. split; [exact Hscm|]. simpl.
  unfold train_model.
  rewrite (fit_unfold _ _ _ _ _ _ _ _ Hscm Hk), Hknown.
  rewrite epochs_loop_empty.
  - simpl. done.
  - unfold initial_factors, shape; simpl. by apply new_frame_in_range.
  - unfold initial_factors, shape; simpl. by apply new_frame_in_range.
Qed.

Lemma student_course_matrix_names self scm :
  student_course_matrix self = Return (Some scm) →
  index_name scm = Some "student_number" ∧ columns_name scm = Some "course_number".
Proof.
  unfold student_course_matrix, read_csv.
  destruct (header (student_course_matrix_path self)) as [|h cols]; [done|].
  case_decide; [|done]. by intros [= <-].
Qed.

Lemma sgd_step_named (lam eta : R) a b QP l QP' :
  named a b QP → sgd_step lam eta QP l = Return QP' → named a b QP'.
Proof.
  destruct QP as [Q P], l as [[m i] r]. unfold sgd_step.
  intros Hn Hstep.
  apply bind_Return_inv in Hstep as (q & _ & Hstep).
  apply bind_Return_inv in Hstep as (p & _ & Hstep).
  injection Hstep as <-. exact Hn.
Qed.

Lemma epoch_body_named (lam eta : R) known a b (st st' : factors * list R) (n : nat) :
  named a b st.1 → epoch_body lam eta known st n = Return st' → named a b st'.1.
Proof.
  destruct st as [QP errs]. rewrite epoch_body_unfold. simpl. intros Hn Hrun.
  apply bind_Return_inv in Hrun as (QP1 & Hep & Hrun).
  apply bind_Return_inv in Hrun as (E & _ & Hrun).
  injection Hrun as <-. simpl.
  apply (for_each_invariant (named a b) (sgd_step lam eta) known QP QP1);
    [|done|done].
  intros ? ? ?. apply sgd_step_named.
Qed.

Lemma fit_named self lam epochs eta number_factors draw_Q draw_P QP errors :
  fit self lam epochs eta number_factors draw_Q draw_P = Return (QP, errors) →
  named "course_number" "student_number" QP.
Proof.
  unfold fit. intros Hfit.
  apply bind_Return_inv in Hfit as ([scm|] & Hscm & Hfit); [|done].
  apply student_course_matrix_names in Hscm as [Hi Hc].
  apply bind_Return_inv in Hfit as (_ & _ & Hfit).
  apply bind_Return_inv in Hfit as (_ & _ & Hfit).
  apply (for_each_invariant
           (λ st : factors * list R, named "course_number" "student_number" st.1))
    in Hfit; [done| |].
  - intros ? ? ?. apply epoch_body_named.
  - unfold initial_factors, shape; simpl. done.
Qed.

Lemma train_model_trained self
    (lam : R) (epochs : Z) (eta : R) (number_factors : Z) draw_Q draw_P
    self' errors :
  train_model self lam epochs eta number_factors draw_Q draw_P
  = Return (self', errors) →
  trained self' = true
  ∧ ∃ scm, student_course_matrix self' = Return (Some scm)
           ∧ student_course_matrix self = Return (Some scm).
Proof.
  unfold train_model. intros Hrun.
  apply bind_Return_inv in Hrun as ([QP errs] & Hfit & [= <- <-]).
  split; [done|]. unfold fit in Hfit.
  apply bind_Return_inv in Hfit as ([scm|] & Hscm & Hrest); [|done].
  exists scm. split; [|done]. exact Hscm.
Qed.

(** The parameter files of a training run, and what [parameters] reads
    back when the course and student numbers are text: the fitted rows
    under their labels, the column labels now strings. *)
Lemma train_model_files self
    (lam : R) (epochs : Z) (eta : R) (number_factors : Z) draw_Q draw_P
    self' errors :
  train_model self lam epochs eta number_factors draw_Q draw_P
  = Return (self', errors) →
  ∃ Q P,
    fit self lam epochs eta number_factors draw_Q draw_P = Return ((Q, P), errors)
    ∧ model_parameters_path_Q self' = Some (to_csv Q)
    ∧ model_parameters_path_P self' = Some (to_csv P)
    ∧ student_course_matrix_path self' = student_course_matrix_path self
    ∧ known_ratings_matrix_path self' = known_ratings_matrix_path self
    ∧ trained self' = true.
Proof.
  unfold train_model. intros Hrun.
  apply bind_Return_inv in Hrun as ([[Q P] errs] & Hfit & Hrun).
  injection Hrun as <- <-. exists Q, P. done.
Qed.

Lemma parameters_text self (Q P : DataFrame R) (courses students : list string) :
  model_parameters_path_Q self = Some (to_csv Q) →
  model_parameters_path_P self = Some (to_csv P) →
  named "course_number" "student_number" (Q, P) →
  index Q = LStr <$> courses →
  index P = LStr <$> students →
  Forall (λ t, text_label t = true) courses →
  Forall (λ t, text_label t = true) students →
  ∃ Q' P', parameters self = Return (Some (Q', P'))
           ∧ rows Q' = rows Q ∧ rows P' = rows P.
Proof.
  intros HfQ HfP (HQi & _ & HPi & _) HiQ HiP HtQ HtP. simpl in *.
  unfold parameters. rewrite HfQ, HfP. simpl.
  rewrite (read_csv_to_csv_text Q _ courses HQi HiQ HtQ). simpl.
  rewrite (read_csv_to_csv_text P _ students HPi HiP HtP). simpl.
  eexists _, _. split; [reflexivity|]. done.
Qed.

End Persistence.

(** ** Recommender *)

Section Recommend.

Context {R : Type} `{Scalar R}.
Implicit Types (self : RecommendationSystem (R:=R)) (university : University).
Implicit Types (student : Student) (clock : Clock) (s : Series (R:=R)).

Lemma loc_labels_inv (ps : list (label * R)) labels selected :
  loc_labels ps labels = Return selected →
  Forall (λ l, LStr l ∈ ps.*1) labels
  ∧ selected = omap (λ l, (λ v, (l, v)) <$> lookup_row (LStr l) ps) labels.
Proof.
  unfold loc_labels.
  destruct (List.filter _ labels) as [|m ms] eqn:Hf; [|done].
  intros [= <-]. split; [|done].
  apply Forall_forall. intros l Hl.
  destruct (decide (LStr l ∈ ps.*1)) as [|Hno]; [done|]. exfalso.
  assert (In l (List.filter (λ l, bool_decide (LStr l ∉ ps.*1)) labels)) as Hin.
  { apply filter_In. split; [by apply list_elem_of_In|].
    by apply bool_decide_eq_true. }
  by rewrite Hf in Hin.
Qed.

Lemma omap_lookup_rows (ps : list (label * R)) (labels : list string) :
  Forall (λ l, LStr l ∈ ps.*1) labels →
  (omap (λ l, (λ v, (l, v)) <$> lookup_row (LStr l) ps) labels).*1 = labels
  ∧ ∀ c v, (c, v) ∈ omap (λ l, (λ v, (l, v)) <$> lookup_row (LStr l) ps) labels →
           c ∈ labels ∧ lookup_row (LStr c) ps = Some v.
Proof.
  induction 1 as [|l labels Hl _ [IH1 IH2]]; simpl.
  - split; [done|]. intros c v Hin. inversion Hin.
  - apply lookup_row_is_Some in Hl as [w Hw]. rewrite Hw. simpl. split.
    + f_equal. exact IH1.
    + intros c v Hin. apply elem_of_cons in Hin as [[= -> ->]|Hin].
      * split; [apply list_elem_of_here|done].
      * destruct (IH2 c v Hin). split; [by apply list_elem_of_further|done].
Qed.

Lemma loc_labels_labels (ps : list (label * R)) labels selected :
  loc_labels ps labels = Return selected → selected.*1 = labels.
Proof.
  intros Hsel. apply loc_labels_inv in Hsel as [Hall ->].
  by apply omap_lookup_rows.
Qed.

Lemma loc_labels_lookup (ps : list (label * R)) labels selected c v :
  loc_labels ps labels = Return selected → (c, v) ∈ selected →
  c ∈ labels ∧ lookup_row (LStr c) ps = Some v.
Proof.
  intros Hsel Hin. apply loc_labels_inv in Hsel as [Hall ->].
  by apply (omap_lookup_rows ps labels Hall).
Qed.

Lemma insert_desc_perm (x : string * R) s : insert_desc x s ≡ₚ x :: s.
Proof.
  induction s as [|y s IH]; simpl; [done|].
  destruct (rleb y.2 x.2); [done|].
  rewrite IH. apply Permutation_swap.
Qed.

Lemma sort_values_desc_perm s : sort_values_desc s ≡ₚ s.
Proof.
  induction s as [|x s IH]; simpl; [done|].
  by rewrite insert_desc_perm, IH.
Qed.

Lemma head_elem (n : Z) s x : x ∈ head n s → x ∈ s.
Proof.
  unfold head. intros Hin. apply elem_of_take in Hin as (i & Hi & _).
  by eapply list_elem_of_lookup_2.
Qed.

Lemma find_course_number university (number : string) c :
  find_course university number = Some c → course_number c = number.
Proof.
  unfold find_course. intros Hf. apply find_some in Hf as [_ Hb].
  by apply bool_decide_eq_true in Hb.
Qed.

Lemma not_enrolled_in_elem (courses : list string) student c :
  c ∈ not_enrolled_in courses student →
  c ∈ courses ∧ c ∉ enrolled_course_number <$> enrollments student.
Proof.
  unfold not_enrolled_in. rewrite list_elem_of_In, filter_In, <- list_elem_of_In.
  intros [Hin Hb]. by apply bool_decide_eq_true in Hb.
Qed.

Lemma in_range_spec (x lo hi : Z) : in_range x lo hi = true ↔ lo ≤ x < hi.
Proof. unfold in_range. rewrite andb_true_iff, Z.leb_le, Z.ltb_lt. done. Qed.

(** What a call that returns has gone through. *)
Lemma generate_recommendations_Return self clock university student
    (number_recommendations : Z) recs :
  generate_recommendations self clock university student number_recommendations
  = Return recs →
  ∃ scm Q P p selected,
    1 ≤ number_recommendations ≤ 3
    ∧ trained self = true
    ∧ student_course_matrix self = Return (Some scm)
    ∧ parameters self = Return (Some (Q, P))
    ∧ loc (student_number student) P = Return p
    ∧ loc_labels (matmul Q p) (not_enrolled_in (columns scm) student)
      = Return selected
    ∧ recs = map (λ cr : string * R,
                    new_Recommendation clock student
                      (find_course university cr.1) (cr.2 / of_Z 20)%S)
                 (head (Z.min number_recommendations
                          (Z.of_nat (length (not_enrolled_in (columns scm) student))))
                       (sort_values_desc selected)).
Proof.
  unfold generate_recommendations, py_assert. intros Hgen.
  destruct (in_range number_recommendations 1 4) eqn:Hn; [|done].
  apply in_range_spec in Hn. simpl in Hgen.
  destruct (trained self) eqn:Ht; [|done]. simpl in Hgen.
  apply bind_Return_inv in Hgen as ([scm|] & Hscm & Hgen); [|done].
  apply bind_Return_inv in Hgen as ([[Q P]|] & Hpar & Hgen); [|done].
  apply bind_Return_inv in Hgen as (p & Hp & Hgen).
  apply bind_Return_inv in Hgen as (selected & Hsel & [= <-]).
  exists scm, Q, P, p, selected. repeat split; try done; lia.
Qed.

(** What a call on a trained model with a number in range comes down to. *)
Lemma generate_recommendations_trained self clock university student
    (number_recommendations : Z) scm Q P :
  1 ≤ number_recommendations ≤ 3 →
  trained self = true →
  student_course_matrix self = Return (Some scm) →
  parameters self = Return (Some (Q, P)) →
  generate_recommendations self clock university student number_recommendations
  = loc (student_number student) P ≫= λ p,
      loc_labels (matmul Q p) (not_enrolled_in (columns scm) student) ≫= λ selected,
        Return (map (λ cr : string * R,
                       new_Recommendation clock student
                         (find_course university cr.1) (cr.2 / of_Z 20)%S)
                    (head (Z.min number_recommendations
                             (Z.of_nat (length (not_enrolled_in (columns scm) student))))
                          (sort_values_desc selected))).
Proof.
  intros Hn Ht Hscm Hpar. unfold generate_recommendations.
  assert (in_range number_recommendations 1 4 = true) as ->
    by (apply in_range_spec; lia).
  rewrite Ht. simpl.
  rewrite Hscm. simpl. rewrite Hpar. simpl. reflexivity.
Qed.

(** C3 (as the code has it). For every member, a call that returns never
    returns a course the member is enrolled in and never returns more than
    min(top_n, |complement|) recommendations; and on a trained model, for
    top_n in [1,3] and a member who has a row in P, an empty complement
    gives the empty list, not an error. *)
Theorem recommend_excludes_enrolled self clock university student (top_n : Z) :
  (∀ recs,
     generate_recommendations self clock university student top_n = Return recs →
     ∃ scm,
       student_course_matrix self = Return (Some scm)
       ∧ (∀ rec c, rec ∈ recs → course rec = Some c →
            course_number c ∉ enrolled_course_number <$> enrollments student)
       ∧ Z.of_nat (length recs)
         ≤ Z.min top_n (Z.of_nat (length (not_enrolled_in (columns scm) student))))
  ∧ (∀ scm Q P p,
       1 ≤ top_n ≤ 3 →
       trained self = true →
       student_course_matrix self = Return (Some scm) →
       parameters self = Return (Some (Q, P)) →
       loc (student_number student) P = Return p →
       not_enrolled_in (columns scm) student = [] →
       generate_recommendations self clock university student top_n = Return []).
Proof.
  split.
  - intros recs Hgen.
    apply generate_recommendations_Return in Hgen
      as (scm & Q & P & p & selected & Hn & _ & Hscm & _ & _ & Hsel & ->).
    exists scm. split; [done|]. split.
    + intros rec c Hrec Hc.
      apply list_elem_of_fmap in Hrec as ([l v] & -> & Hin). simpl in Hc.
      apply find_course_number in Hc as ->.
      apply head_elem in Hin. rewrite sort_values_desc_perm in Hin.
      apply loc_labels_labels in Hsel.
      apply (list_elem_of_fmap_2 fst) in Hin. rewrite Hsel in Hin. simpl in Hin.
      by apply not_enrolled_in_elem in Hin as [_ ?].
    + rewrite length_map. unfold head. rewrite length_take.
      lia.
  - intros scm Q P p Hn Ht Hscm Hpar Hp Hempty.
    rewrite (generate_recommendations_trained _ _ _ _ _ scm Q P Hn Ht Hscm Hpar).
    rewrite Hp, Hempty. simpl. unfold head. by rewrite take_nil.
Qed.

(** C7 (as the code has it). For every top_n outside [1,3] the call fails
    with the invalid-input assertion, trained or not; for top_n in [1,3] on
    a model that no training run has marked trained it fails with the
    not-trained assertion; either way before anything is read or built. *)
Theorem recommend_guards self clock university student (top_n : Z) :
  (¬ 1 ≤ top_n ≤ 3 →
   generate_recommendations self clock university student top_n
   = Raise InvalidInputError)
  ∧ (1 ≤ top_n ≤ 3 → trained self = false →
     generate_recommendations self clock university student top_n
     = Raise NotTrainedError).
Proof.
  unfold generate_recommendations. split.
  - intros Hn. destruct (in_range top_n 1 4) eqn:Hr; [|done].
    apply in_range_spec in Hr. lia.
  - intros Hn Ht.
    assert (in_range top_n 1 4 = true) as -> by (apply in_range_spec; lia).
    rewrite Ht. done.
Qed.

(** C10 (as the code has it). On a trained model whose files read back, for
    top_n in [1,3], a member whose student number is not a label of P gets
    the key-lookup failure on that number, not a list of recommendations.
    A student number made of digits is no label of a P read back from its
    file, which holds it as an integer. *)
Theorem recommend_unknown_member self clock university student (top_n : Z) scm Q P :
  1 ≤ top_n ≤ 3 →
  trained self = true →
  student_course_matrix self = Return (Some scm) →
  parameters self = Return (Some (Q, P)) →
  LStr (student_number student) ∉ index P →
  generate_recommendations self clock university student top_n
  = Raise (KeyError (student_number student)).
Proof.
  intros Hn Ht Hscm Hpar Hnot.
  rewrite (generate_recommendations_trained _ _ _ _ _ scm Q P Hn Ht Hscm Hpar).
  apply lookup_row_None in Hnot. unfold loc. by rewrite Hnot.
Qed.

(** The fields of the recommendations a call builds: the confidence is the
    predicted rating over 20, no feedback is attached, and the generation
    date is the default of the constructor. *)
Lemma recommendation_fields self clock university student (top_n : Z) recs rec :
  generate_recommendations self clock university student top_n = Return recs →
  rec ∈ recs →
  rating rec = None
  ∧ date_generated rec = today_at_import clock
  ∧ ∃ Q P p c,
      parameters self = Return (Some (Q, P))
      ∧ loc (student_number student) P = Return p
      ∧ (LStr c, dot (row_of c Q) p) ∈ matmul Q p
      ∧ correctness_probability rec = (dot (row_of c Q) p / of_Z 20)%S.
Proof.
  intros Hgen Hrec.
  apply generate_recommendations_Return in Hgen
    as (scm & Q & P & p & selected & _ & _ & _ & Hpar & Hp & Hsel & ->).
  apply list_elem_of_fmap in Hrec as ([c v] & -> & Hin). simpl.
  split; [done|]. split; [done|].
  exists Q, P, p, c. split; [done|]. split; [done|].
  apply head_elem in Hin. rewrite sort_values_desc_perm in Hin.
  assert (lookup_row (LStr c) (matmul Q p) = Some v) as Hlook
    by (by eapply loc_labels_lookup).
  assert (v = dot (row_of c Q) p) as ->.
  { clear -Hlook. unfold matmul, row_of in *.
    induction (rows Q) as [|[k q] rs IH]; simpl in *; [done|].
    case_decide; [by simplify_eq|auto]. }
  split; [|done]. by apply lookup_row_Some_elem.
Qed.

End Recommend.

(** ** The views of a reload *)

Section Views.

Context {R : Type} `{Scalar R}.
Implicit Types (self : RecommendationSystem (R:=R)) (university : University).

Lemma pivot_cell_unique (long_df : list long_row) (s c : string) (v : option Z) :
  NoDup (long_df.*1) → (s, c, v) ∈ long_df → pivot_cell long_df s c = v.
Proof.
  unfold pivot_cell. induction long_df as [|r l IH]; intros Hnd Hin.
  - inversion Hin.
  - apply NoDup_cons in Hnd as [Hr Hnd]. simpl.
    apply elem_of_cons in Hin as [<-|Hin].
    + simpl. by rewrite bool_decide_eq_true_2.
    + case_bool_decide as Hk; [|by apply IH].
      exfalso. apply Hr. rewrite Hk.
      apply (list_elem_of_fmap_2 fst l (s, c, v)), Hin.
Qed.

Lemma lookup_row_map {V} (f : string → V) (l : list string) (s : string) :
  s ∈ l → lookup_row s (map (λ s', (s', f s')) l) = Some (f s).
Proof.
  induction l as [|x l IH]; intros Hin; [inversion Hin|]. simpl.
  case_decide; [by subst|]. apply IH.
  apply elem_of_cons in Hin as [?|?]; [congruence|done].
Qed.

Lemma records_reshape (long_df : list long_row) :
  records (to_csv (reshape long_df))
  = map (λ s, (s, map (pivot_cell long_df s) (sorted_labels (long_df.*1.*2))))
        (sorted_labels (long_df.*1.*1)).
Proof. unfold to_csv, reshape; simpl. by rewrite map_map. Qed.

Lemma records_reshape_labels (long_df : list long_row) :
  (records (to_csv (reshape long_df))).*1 = sorted_labels (long_df.*1.*1).
Proof.
  rewrite records_reshape. generalize (sorted_labels long_df.*1.*1).
  intros l. induction l as [|x l IH]; simpl; [done|]. by f_equal.
Qed.

(** The views of a reload.  A reload succeeds exactly on the observation
    sets in which no (student, course) pair occurs twice.  It then writes a
    matrix whose axes are the sorted student numbers and course numbers,
    whose cell for an observation is its rating, and the known ratings in
    the order of the observations; with no observation both views are
    empty.  On a repeated pair the pivot raises and nothing is written. *)
Theorem reload_ratings_views self university :
  let long_df := all_admissions university in
  (NoDup (long_df.*1) →
   ∃ self',
     reload_ratings self university = Return self'
     ∧ (records (student_course_matrix_path self')).*1
       = sorted_labels (long_df.*1.*1)
     ∧ header (student_course_matrix_path self')
       = "student_number" :: sorted_labels (long_df.*1.*2)
     ∧ (∀ s c v, (s, c, v) ∈ long_df →
          ∃ row j, lookup_row s (records (student_course_matrix_path self')) = Some row
                   ∧ sorted_labels (long_df.*1.*2) !! j = Some c
                   ∧ row !! j = Some v)
     ∧ known_ratings_matrix_path self' = dropna long_df
     ∧ (long_df = [] →
        records (student_course_matrix_path self') = []
        ∧ header (student_course_matrix_path self') = ["student_number"]
        ∧ known_ratings_matrix_path self' = []))
  ∧ (¬ NoDup (long_df.*1) →
     reload_ratings self university
     = Raise (ValueError "Index contains duplicate entries, cannot reshape")).
Proof.
  intros long_df. split.
  - intros Hnd.
    pose proof (proj2 (reload_ratings_Return self university _)
                      (conj Hnd eq_refl)) as Hreload.
    eexists. split; [exact Hreload|].
    cbn [student_course_matrix_path known_ratings_matrix_path].
    split; [apply records_reshape_labels|]. split; [done|].
    split; [|split; [done|]].
    + intros s c v Hin.
      assert (s ∈ sorted_labels long_df.*1.*1) as Hs.
      { apply elem_of_sorted_labels.
        apply (list_elem_of_fmap_2 fst (long_df.*1) (s, c)).
        apply (list_elem_of_fmap_2 fst long_df (s, c, v)), Hin. }
      assert (c ∈ sorted_labels long_df.*1.*2) as Hc.
      { apply elem_of_sorted_labels.
        apply (list_elem_of_fmap_2 snd (long_df.*1) (s, c)).
        apply (list_elem_of_fmap_2 fst long_df (s, c, v)), Hin. }
      apply list_elem_of_lookup_1 in Hc as [j Hj].
      eexists _, j. split; [|split; [exact Hj|]].
      * rewrite records_reshape. apply (lookup_row_map _ _ s Hs).
      * fold long_df.
        change (map (pivot_cell long_df s)) with (fmap (M:=list) (pivot_cell long_df s)).
        rewrite list_lookup_fmap, Hj. simpl. f_equal.
        by apply pivot_cell_unique.
    + intros Hempty. unfold long_df in *. rewrite Hempty. done.
  - intros Hdup. unfold reload_ratings, pivot. fold long_df.
    by rewrite decide_False.
Qed.

End Views.

(** ** FeedbackRecorder *)

Section Feedback.

Context {R : Type} `{Scalar R}.
Implicit Types (self : Recommendation (R:=R)) (clock : Clock).

(** C5 (as the code has it). A call with a rating on a recommendation that
    already has a feedback attached does not fail: it attaches a new
    feedback with that rating and today's date in place of the first one,
    so that the recommendation still has a single feedback, and leaves its
    other fields as they are. *)
Theorem add_rating_replaces self clock (v : Ratings) (session : Session)
    (commit : bool) (first : RecommendationRating) :
  rating self = Some first →
  ∃ self' session',
    add_rating self clock (OfRatings v) session commit = Return (self', session')
    ∧ rating self' = Some {| rating_value := v; date_added := today clock |}
    ∧ student self' = student self ∧ course self' = course self
    ∧ correctness_probability self' = correctness_probability self
    ∧ date_generated self' = date_generated self.
Proof. intros _. eexists _, _. split; [reflexivity|]. simpl. done. Qed.

End Feedback.

(** ** The properties on the run of [demo.py] *)


Lemma train_model_error_trace_demo :
  reload_ratings system_0 university_1 = Return system_reloaded
  ∧ known_ratings_matrix_path system_reloaded ≠ []
  ∧ 0 < 2
  ∧ ∃ self' errors,
      train_model system_reloaded 1 2 1 2 draw_tens draw_tens = Return (self', errors)
      ∧ Z.of_nat (length errors) = 2.
Proof.
  assert (reload_ratings system_0 university_1 = Return system_reloaded) as Hr
    by reflexivity.
  assert (known_ratings_matrix_path system_reloaded ≠ []) as Hk by discriminate.
  assert (Forall (λ t, text_label t = true) (all_admissions university_1).*1.*1)
    as Ht by (repeat constructor).
  split; [exact Hr|]. split; [exact Hk|]. split; [lia|].
  destruct (train_model_error_trace system_0 university_1 system_reloaded
              1 2 1 2 draw_tens draw_tens Hr Ht Hk)
    as (self' & errors & _ & Hrun & Hlen & _); [lia|lia|].
  exists self', errors. split; [exact Hrun|exact Hlen].
Defined.

(** C2 fails on a student whose number is made of digits: the reload
    writes the number as text, [read_csv] reads the index of the matrix as
    integers, P is indexed by the integer 1, and the first known rating
    looks the string '1' up and raises, instead of the run returning its
    errors. *)
Lemma train_model_digit_student_raises :
  reload_ratings system_0 university_digit_student = Return system_digit_student
  ∧ known_ratings_matrix_path system_digit_student = [("1", "ST104a", 9)]
  ∧ (∃ scm, student_course_matrix system_digit_student = Return (Some scm)
            ∧ index scm = [LInt 1] ∧ columns scm = ["ST104a"])
  ∧ train_model system_digit_student 0 1 0 2 draw_tens draw_tens
    = Raise (KeyError "1").
Proof.
  split; [reflexivity|]. split; [reflexivity|]. split; [|reflexivity].
  eexists. split; [reflexivity|]. split; reflexivity.
Qed.

(** C3, as stated, fails: the complement of [student_3] is empty and the
    call raises. *)
Lemma recommend_empty_complement_raises :
  trained system_trained = true
  ∧ (∃ scm, student_course_matrix system_trained = Return (Some scm)
            ∧ not_enrolled_in (columns scm) student_3 = [])
  ∧ generate_recommendations system_trained clock_next_day university_1 student_3 3
    = Raise (KeyError "nr3").
Proof.
  split; [reflexivity|]. split; [|reflexivity].
  eexists. split; [reflexivity|]. reflexivity.
Qed.

Lemma recommend_excludes_enrolled_demo :
  (∃ recs,
     generate_recommendations system_trained clock_next_day university_1 student_2 3
     = Return recs
     ∧ ∀ rec c, rec ∈ recs → course rec = Some c → course_number c ≠ "MT1173")
  ∧ generate_recommendations system_trained clock_next_day university_1
      (mkStudent "nr1" (enrollments student_1 ++ enrollments student_2)) 3
    = Return [].
Proof.
  pose proof (recommend_excludes_enrolled system_trained clock_next_day
                university_1 student_2 3) as [Hret _].
  pose proof (recommend_excludes_enrolled system_trained clock_next_day university_1
                (mkStudent "nr1" (enrollments student_1 ++ enrollments student_2)) 3)
    as [_ Hempty].
  split.
  - eexists. split; [reflexivity|].
    destruct (Hret _ eq_refl) as (scm & _ & Hnot & _).
    intros rec c Hrec Hc Heq. apply (Hnot rec c Hrec Hc). rewrite Heq.
    apply list_elem_of_here.
  - eapply Hempty; [lia|reflexivity|reflexivity|reflexivity|reflexivity|reflexivity].
Defined.

(** C4, as stated, fails: with no known rating the training run returns its
    errors, marks the model trained and writes the parameter files. *)
Lemma train_model_empty_known_succeeds :
  reload_ratings system_0 university_unrated = Return system_unrated
  ∧ known_ratings_matrix_path system_unrated = []
  ∧ train_model system_unrated 1 2 1 1 draw_tens draw_tens
    = Return (system_unrated_trained, [200; 200])
  ∧ trained system_unrated_trained = true
  ∧ is_Some (model_parameters_path_Q system_unrated_trained).
Proof. repeat split; try reflexivity. by eexists. Qed.

Lemma train_model_empty_known_demo :
  reload_ratings system_0 university_unrated = Return system_unrated
  ∧ known_ratings_matrix_path system_unrated = []
  ∧ 0 < 1
  ∧ (∀ i j : nat, py_pow2 (draw_tens i j) = Some (square (draw_tens i j)))
  ∧ ∃ self' errors,
      train_model system_unrated 1 2 1 1 draw_tens draw_tens = Return (self', errors)
      ∧ trained self' = true.
Proof.
  assert (∀ i j : nat, py_pow2 (draw_tens i j) = Some (square (draw_tens i j)))
    as Hd by (intros; reflexivity).
  split; [reflexivity|]. split; [reflexivity|]. split; [lia|]. split; [exact Hd|].
  destruct (train_model_empty_known system_0 university_unrated system_unrated
              1 2 1 1 draw_tens draw_tens eq_refl eq_refl)
    as (self' & scm & _ & Hrun & Ht & _); [lia|exact Hd|exact Hd|].
  eexists self', _. split; [exact Hrun|exact Ht].
Defined.

(** C5, as stated, fails: the second call returns and the first feedback
    is replaced. *)
Lemma add_rating_twice_succeeds :
  add_rating recommendation_1 clock_next_day (OfRatings HELPFUL) session_0 true
  = Return (recommendation_1_rated, session_1)
  ∧ rating recommendation_1_rated = Some rating_helpful
  ∧ ∃ self' session',
      add_rating recommendation_1_rated clock_next_day (OfRatings NOT_HELPFUL)
        session_1 true
      = Return (self', session')
      ∧ rating self' = Some {| rating_value := NOT_HELPFUL; date_added := date_2 |}
      ∧ rating self' ≠ rating recommendation_1_rated.
Proof.
  split; [reflexivity|]. split; [reflexivity|].
  eexists _, _. split; [reflexivity|]. split; [reflexivity|]. discriminate.
Qed.

Lemma add_rating_replaces_demo :
  rating recommendation_1_rated = Some rating_helpful
  ∧ ∃ self' session',
      add_rating recommendation_1_rated clock_next_day (OfRatings NOT_HELPFUL)
        session_1 true
      = Return (self', session')
      ∧ rating self' = Some {| rating_value := NOT_HELPFUL; date_added := date_2 |}.
Proof.
  split; [reflexivity|].
  destruct (add_rating_replaces recommendation_1_rated clock_next_day NOT_HELPFUL
              session_1 true rating_helpful eq_refl)
    as (self' & session' & Hcall & Hr & _).
  exists self', session'. split; [exact Hcall|exact Hr].
Defined.

(** C6 fails on two enrolments of one student in one course, which the
    key of [StudentCourse] (student, course, start date) admits: the reload
    raises instead of writing the views. *)
Lemma reload_ratings_duplicate_raises :
  all_admissions university_twice
  = [("nr1", "ST104a", Some 9); ("nr1", "ST104a", Some 8)]
  ∧ reload_ratings system_0 university_twice
    = Raise (ValueError "Index contains duplicate entries, cannot reshape").
Proof. split; reflexivity. Qed.

Lemma reload_ratings_views_demo :
  NoDup (all_admissions university_1).*1
  ∧ (∃ self',
       reload_ratings system_0 university_1 = Return self'
       ∧ (records (student_course_matrix_path self')).*1 = ["nr1"; "nr2"]
       ∧ header (student_course_matrix_path self')
         = ["student_number"; "MT1173"; "MT1174"; "ST104a"])
  ∧ ¬ NoDup (all_admissions university_twice).*1
  ∧ reload_ratings system_0 university_twice
    = Raise (ValueError "Index contains duplicate entries, cannot reshape").
Proof.
  assert (NoDup (all_admissions university_1).*1) as Hnd
    by (apply (bool_decide_unpack _); vm_compute; exact I).
  assert (¬ NoDup (all_admissions university_twice).*1) as Hdup
    by (apply (bool_decide_unpack _); vm_compute; exact I).
  split; [exact Hnd|]. split; [|split; [exact Hdup|]].
  - destruct (reload_ratings_views system_0 university_1) as [Hok _].
    destruct (Hok Hnd) as (self' & Hr & Hi & Hc & _).
    exists self'. split; [exact Hr|]. split; [exact Hi|exact Hc].
  - destruct (reload_ratings_views system_0 university_twice) as [_ Hko].
    exact (Hko Hdup).
Defined.

(** C7, as stated, fails: before any training run, a number out of range
    gets the invalid-input failure, not the not-trained one. *)
Lemma recommend_untrained_out_of_range :
  trained system_0 = false
  ∧ generate_recommendations system_0 clock_next_day university_1 student_1 0
    = Raise InvalidInputError
  ∧ generate_recommendations system_0 clock_next_day university_1 student_1 0
    ≠ Raise NotTrainedError.
Proof. split; [reflexivity|]. split; [reflexivity|discriminate]. Qed.

Lemma recommend_guards_demo :
  ¬ 1 ≤ 7 ≤ 3
  ∧ generate_recommendations system_trained clock_next_day university_1 student_1 7
    = Raise InvalidInputError
  ∧ 1 ≤ 2 ≤ 3
  ∧ trained system_reloaded = false
  ∧ generate_recommendations system_reloaded clock_next_day university_1 student_1 2
    = Raise NotTrainedError.
Proof.
  assert (¬ 1 ≤ 7 ≤ 3) as H7 by lia.
  assert (1 ≤ 2 ≤ 3) as H2 by lia.
  split; [exact H7|]. split; [|split; [exact H2|split; [reflexivity|]]].
  - exact (proj1 (recommend_guards system_trained clock_next_day university_1
                    student_1 7) H7).
  - exact (proj2 (recommend_guards system_reloaded clock_next_day university_1
                    student_1 2) H2 eq_refl).
Defined.

(** C8 fails on courses whose numbers are made of digits: the training run
    fits a Q whose rows stand under the strings '101' and '102' and writes
    it; [parameters] reads the index back as the integers 101 and 102, the
    lookup of the course number '101' that found the row of the fitted Q
    raises on the Q read back, and so does the recommendation. *)
Lemma parameters_digit_courses_lose_rows :
  reload_ratings system_0 university_digit_courses = Return system_digit_courses
  ∧ train_model system_digit_courses 0 1 0 2 draw_tens draw_tens
    = Return (system_digit_courses_trained, [73345])
  ∧ (∃ Q P errors,
       fit system_digit_courses 0 1 0 2 draw_tens draw_tens
       = Return ((Q, P), errors)
       ∧ index Q = [LStr "101"; LStr "102"]
       ∧ loc "101" Q = Return [10; 10])
  ∧ (∃ Q' P',
       parameters system_digit_courses_trained = Return (Some (Q', P'))
       ∧ index Q' = [LInt 101; LInt 102]
       ∧ loc "101" Q' = Raise (KeyError "101")
       ∧ index P' = [LStr "nr1"; LStr "nr2"])
  ∧ generate_recommendations system_digit_courses_trained clock_next_day
      university_digit_courses student_5 3
    = Raise (KeyError_not_in_index ["102"]).
Proof.
  split; [reflexivity|]. split; [reflexivity|]. split; [|split; [|reflexivity]].
  - eexists _, _, _. split; [reflexivity|]. split; reflexivity.
  - eexists _, _. split; [reflexivity|]. repeat split; reflexivity.
Qed.

(** C9 at a run that is imported on one day and called on the next: the
    confidence is the predicted rating over 20 (200 / 20) and no feedback is
    attached, but the generation date is the day of the import. *)
Lemma recommendation_dated_at_import :
  today clock_next_day = date_2
  ∧ generate_recommendations system_trained clock_next_day university_1 student_1 3
    = Return [{| student := student_1; course := Some course_4;
                 correctness_probability := 10;
                 date_generated := date_1; rating := None |}]
  ∧ date_1 ≠ today clock_next_day.
Proof. split; [reflexivity|]. split; [reflexivity|discriminate]. Qed.

(** C10, as stated, fails: for a number out of range the member without a
    row in P gets the invalid-input failure, which is raised before P is
    read. *)
Lemma recommend_unknown_member_out_of_range :
  trained system_trained = true
  ∧ (∃ Q P, parameters system_trained = Return (Some (Q, P))
            ∧ LStr (student_number student_4) ∉ index P)
  ∧ generate_recommendations system_trained clock_next_day university_1 student_4 0
    = Raise InvalidInputError
  ∧ generate_recommendations system_trained clock_next_day university_1 student_4 0
    ≠ Raise (KeyError (student_number student_4)).
Proof.
  split; [reflexivity|]. split; [|split; [reflexivity|discriminate]].
  eexists _, _. split; [reflexivity|].
  apply (bool_decide_unpack _); vm_compute; exact I.
Qed.

Lemma recommend_unknown_member_demo :
  1 ≤ 3 ≤ 3
  ∧ trained system_trained = true
  ∧ (∃ Q P, parameters system_trained = Return (Some (Q, P))
            ∧ LStr (student_number student_4) ∉ index P)
  ∧ generate_recommendations system_trained clock_next_day university_1 student_4 3
    = Raise (KeyError "nr4").
Proof.
  assert (1 ≤ 3 ≤ 3) as Hn by lia.
  split; [exact Hn|]. split; [reflexivity|].
  set (Q := mkDataFrame (A:=Z) (Some "course_number") None Object ["0"; "1"]
              [(LStr "MT1173", [10; 10]); (LStr "MT1174", [10; 10]);
               (LStr "ST104a", [10; 10])]).
  set (P := mkDataFrame (A:=Z) (Some "student_number") None Object ["0"; "1"]
              [(LStr "nr1", [10; 10]); (LStr "nr2", [10; 10])]).
  assert (LStr (student_number student_4) ∉ index P) as Hnot
    by (apply (bool_decide_unpack _); vm_compute; exact I).
  split; [exists Q, P; split; [reflexivity|exact Hnot]|].
  exact (recommend_unknown_member system_trained clock_next_day university_1
           student_4 3 _ Q P Hn eq_refl eq_refl eq_refl Hnot).
Defined.

(** ** More on the trainer *)

Section TrainerEdges.

Context {R : Type} `{Scalar R}.
Implicit Types (self : RecommendationSystem (R:=R)) (QP : factors (R:=R)).
Implicit Types (known : list known_line).

Lemma for_each_invariant_elem {A B} (I : A → Prop) (body : A → B → result A) xs acc acc' :
  (∀ a x a', x ∈ xs → I a → body a x = Return a' → I a') →
  I acc → for_each body xs acc = Return acc' → I acc'.
Proof.
  revert acc. induction xs as [|x xs IH]; intros acc Hbody HI; simpl.
  - by intros [= <-].
  - intros Hrun. apply bind_Return_inv in Hrun as (a & Hstep & Hrest).
    apply (IH a); [|by eapply Hbody; [apply list_elem_of_here|..]|done].
    intros a0 x0 a' Hx0. apply Hbody. by apply list_elem_of_further.
Qed.

Lemma sgd_step_inv (lam eta : R) (Q P : DataFrame R) (m i : string) (r : Z) QP' :
  sgd_step lam eta (Q, P) (m, i, r) = Return QP' →
  ∃ q p q' p',
    loc i Q = Return q ∧ loc m P = Return p
    ∧ length q' = Nat.min (length q) (length p)
    ∧ length p' = Nat.min (length p) (length q)
    ∧ QP' = (set_loc i q' Q, set_loc m p' P).
Proof.
  unfold sgd_step. intros Hstep.
  apply bind_Return_inv in Hstep as (q & Hq & Hstep).
  apply bind_Return_inv in Hstep as (p & Hp & Hstep).
  injection Hstep as <-.
  eexists q, p, _, _. split; [done|]. split; [done|].
  split; [|split; [|reflexivity]];
    unfold vadd, vsub, scale;
    rewrite length_zip_with, length_map, length_zip_with, !length_map; lia.
Qed.

(** Whatever the update of one line keeps, a training run that returns has
    kept from the initial matrices on. *)
Lemma fit_invariant (I : factors (R:=R) → Prop) self
    (lam : R) (epochs : Z) (eta : R) (number_factors : Z) draw_Q draw_P scm QP errors :
  student_course_matrix self = Return (Some scm) →
  (∀ QP0 l QP1, l ∈ known_ratings_matrix_path self → I QP0 →
                sgd_step lam eta QP0 l = Return QP1 → I QP1) →
  I (initial_factors scm (Z.to_nat number_factors) draw_Q draw_P) →
  fit self lam epochs eta number_factors draw_Q draw_P = Return (QP, errors) →
  I QP.
Proof.
  intros Hscm Hstep Hinit Hfit. unfold fit in Hfit. rewrite Hscm in Hfit.
  simpl in Hfit.
  apply bind_Return_inv in Hfit as (_ & _ & Hfit).
  apply bind_Return_inv in Hfit as (_ & _ & Hfit).
  apply (for_each_invariant (λ st : factors * list R, I st.1)) in Hfit; [done| |done].
  intros [QP0 errs] n st' HI Hbody. rewrite epoch_body_unfold in Hbody.
  apply bind_Return_inv in Hbody as (QP1 & Hep & Hbody).
  apply bind_Return_inv in Hbody as (E & _ & [= <-]). simpl in *.
  by apply (for_each_invariant_elem I (sgd_step lam eta)
              (known_ratings_matrix_path self) QP0 QP1).
Qed.

Lemma initial_factors_index (scm : DataFrame (option Z)) k
    (draw_Q draw_P : nat → nat → R) :
  index (initial_factors scm k draw_Q draw_P).1 = columns_index scm
  ∧ index (initial_factors scm k draw_Q draw_P).2 = index scm.
Proof.
  unfold initial_factors, shape. simpl. split.
  - apply (new_frame_rectangular draw_Q (columns_name scm) (columns_index scm)
             (length (columns scm)) k).
    unfold columns_index. case_match; apply length_fmap.
  - apply (new_frame_rectangular draw_P (index_name scm) (index scm)
             (length (rows scm)) k).
    unfold index. apply length_fmap.
Qed.

Lemma train_model_inv self
    (lam : R) (epochs : Z) (eta : R) (number_factors : Z) draw_Q draw_P self' errors :
  train_model self lam epochs eta number_factors draw_Q draw_P = Return (self', errors) →
  ∃ scm Q P,
    student_course_matrix self = Return (Some scm)
    ∧ 0 < number_factors
    ∧ fit self lam epochs eta number_factors draw_Q draw_P = Return ((Q, P), errors)
    ∧ student_course_matrix self' = Return (Some scm)
    ∧ model_parameters_path_Q self' = Some (to_csv Q)
    ∧ model_parameters_path_P self' = Some (to_csv P)
    ∧ trained self' = true.
Proof.
  intros Hrun. pose proof Hrun as Hrun'. unfold train_model in Hrun.
  apply bind_Return_inv in Hrun as ([[Q P] errs] & Hfit & [= <- <-]).
  pose proof Hfit as Hfit'. unfold fit in Hfit'.
  apply bind_Return_inv in Hfit' as ([scm|] & Hscm & Hrest); [|done].
  assert (0 < number_factors) as Hk.
  { destruct (decide (number_factors = 0)); [done|].
    destruct (decide (number_factors < 0)); [done|lia]. }
  exists scm, Q, P. repeat split; done.
Qed.

(** X1. With no epoch to run (a number of epochs that is zero or negative), a
    call on a readable matrix and a positive number of factors returns an
    empty error trace, marks the model trained and writes the random
    initial matrices to the parameter files. *)
Theorem train_model_no_epoch self
    (lam : R) (epochs : Z) (eta : R) (number_factors : Z) draw_Q draw_P scm :
  student_course_matrix self = Return (Some scm) →
  0 < number_factors →
  epochs ≤ 0 →
  let QP0 := initial_factors scm (Z.to_nat number_factors) draw_Q draw_P in
  ∃ self',
    train_model self lam epochs eta number_factors draw_Q draw_P = Return (self', [])
    ∧ trained self' = true
    ∧ model_parameters_path_Q self' = Some (to_csv QP0.1)
    ∧ model_parameters_path_P self' = Some (to_csv QP0.2)
    ∧ student_course_matrix_path self' = student_course_matrix_path self
    ∧ known_ratings_matrix_path self' = known_ratings_matrix_path self.
Proof.
  intros Hscm Hk He QP0.
  assert (fit self lam epochs eta number_factors draw_Q draw_P = Return (QP0, []))
    as Hfit.
  { rewrite (fit_unfold _ _ _ _ _ _ _ scm Hscm Hk).
    replace (Z.to_nat epochs) with 0%nat by lia. reflexivity. }
  eexists. split; [unfold train_model; rewrite Hfit; reflexivity|].
  done.
Qed.

(** X2. A call fails before any epoch when the matrix file has no data, as
    before the first reload (reading [shape] off [None]), and when the
    number of factors is zero (the division in the initial bound). *)
Theorem train_model_fails_early self
    (lam : R) (epochs : Z) (eta : R) (number_factors : Z) draw_Q draw_P :
  (header (student_course_matrix_path self) = [] →
   train_model self lam epochs eta number_factors draw_Q draw_P
   = Raise (AttributeError "'NoneType' object has no attribute 'shape'"))
  ∧ (∀ scm, student_course_matrix self = Return (Some scm) →
       number_factors = 0 →
       train_model self lam epochs eta number_factors draw_Q draw_P
       = Raise ZeroDivisionError).
Proof.
  split.
  - intros Hh. unfold train_model, fit, student_course_matrix, read_csv.
    rewrite Hh. reflexivity.
  - intros scm Hscm ->. unfold train_model, fit. rewrite Hscm. reflexivity.
Qed.

(** X3. The first line of the known-ratings file that names a course without a
    column in the matrix, or a student without a row in it, makes the call
    raise the key-lookup failure on that label, in the first epoch. *)
Theorem train_model_missing_key self
    (lam : R) (epochs : Z) (eta : R) (number_factors : Z) draw_Q draw_P scm
    (pre post : list known_line) (m i : string) (r : Z) :
  student_course_matrix self = Return (Some scm) →
  0 < number_factors →
  0 < epochs →
  known_ratings_matrix_path self = pre ++ (m, i, r) :: post →
  (∀ l, l ∈ pre → LStr l.1.1 ∈ index scm ∧ l.1.2 ∈ columns scm) →
  (i ∉ columns scm →
   train_model self lam epochs eta number_factors draw_Q draw_P = Raise (KeyError i))
  ∧ (i ∈ columns scm → LStr m ∉ index scm →
     train_model self lam epochs eta number_factors draw_Q draw_P = Raise (KeyError m)).
Proof.
  intros Hscm Hk He Hknown Hpre.
  set (QP0 := initial_factors scm (Z.to_nat number_factors) draw_Q draw_P).
  pose proof (student_course_matrix_Object _ _ Hscm) as Hobj.
  assert (columns_index scm = LStr <$> columns scm) as Hci
    by (unfold columns_index; by rewrite Hobj).
  pose proof (initial_factors_fitting scm (Z.to_nat number_factors)
                draw_Q draw_P pre Hobj Hpre) as Hfit0. fold QP0 in Hfit0.
  destruct (sgd_epoch_fitting lam eta _ pre QP0 Hfit0)
    as ([Q1 P1] & Hrun & [HiQ HiP] & _).
  destruct (initial_factors_index scm (Z.to_nat number_factors) draw_Q draw_P)
    as [HQ0 HP0]. fold QP0 in HQ0, HP0.
  cbn [fst snd] in HiQ, HiP. rewrite HQ0, Hci in HiQ. rewrite HP0 in HiP.
  assert (∀ e, sgd_step lam eta (Q1, P1) (m, i, r) = Raise e →
               train_model self lam epochs eta number_factors draw_Q draw_P = Raise e)
    as Hraise.
  { intros e Hstep. unfold train_model.
    rewrite (fit_unfold _ _ _ _ _ _ _ scm Hscm Hk). fold QP0.
    destruct (Z.to_nat epochs) as [|n] eqn:Hn; [lia|].
    simpl seq. rewrite for_each_cons, epoch_body_unfold.
    unfold sgd_epoch. rewrite Hknown, for_each_app.
    unfold sgd_epoch in Hrun. rewrite Hrun, bind_Return, for_each_cons, Hstep.
    reflexivity. }
  split.
  - intros Hi. apply Hraise. unfold sgd_step, loc.
    assert (lookup_row (LStr i) (rows Q1) = None) as ->; [|done].
    apply lookup_row_None. fold (index Q1). rewrite HiQ.
    intros Hin. apply list_elem_of_fmap in Hin as (i' & [= <-] & Hin). done.
  - intros Hi Hm. apply Hraise. unfold sgd_step.
    destruct (loc_in_index Q1 i) as (q & -> & _);
      [rewrite HiQ; by apply list_elem_of_fmap_2|]. simpl.
    unfold loc.
    assert (lookup_row (LStr m) (rows P1) = None) as ->; [|done].
    apply lookup_row_None. fold (index P1). by rewrite HiP.
Qed.

(** X4. The matrices a training run has fitted, which it writes to the
    parameter files, have one row per column of the student-course matrix
    (Q) and one per row of it (P), under the same labels in the same order,
    and every row has one entry per factor. *)
Theorem train_model_shape self
    (lam : R) (epochs : Z) (eta : R) (number_factors : Z) draw_Q draw_P self' errors :
  train_model self lam epochs eta number_factors draw_Q draw_P = Return (self', errors) →
  ∃ scm Q P,
    student_course_matrix self = Return (Some scm)
    ∧ fit self lam epochs eta number_factors draw_Q draw_P = Return ((Q, P), errors)
    ∧ model_parameters_path_Q self' = Some (to_csv Q)
    ∧ model_parameters_path_P self' = Some (to_csv P)
    ∧ index Q = LStr <$> columns scm ∧ index P = index scm
    ∧ rectangular (Z.to_nat number_factors) Q
    ∧ rectangular (Z.to_nat number_factors) P.
Proof.
  intros Hrun.
  apply train_model_inv in Hrun
    as (scm & Q & P & Hscm & Hk & Hfit & _ & HfQ & HfP & _).
  exists scm, Q, P. split; [done|]. split; [done|]. split; [done|]. split; [done|].
  set (k := Z.to_nat number_factors).
  pose proof (student_course_matrix_Object _ _ Hscm) as Hobj.
  assert (columns_index scm = LStr <$> columns scm) as Hci
    by (unfold columns_index; by rewrite Hobj).
  pose proof (initial_factors_fitting scm k draw_Q draw_P [] Hobj
                (λ l Hl, False_ind _ (not_elem_of_nil l Hl))) as (HQ0 & HP0 & _).
  apply (fit_invariant
           (λ QP, index QP.1 = LStr <$> columns scm ∧ index QP.2 = index scm
                  ∧ rectangular k QP.1 ∧ rectangular k QP.2)
           self lam epochs eta number_factors draw_Q draw_P scm (Q, P) errors Hscm);
    [| |exact Hfit].
  - intros [Q0 P0] [[m i] r] QP1 _ (HiQ & HiP & HrQ & HrP) Hstep. simpl in *.
    apply sgd_step_inv in Hstep as (q & p & q' & p' & Hq & Hp & Hlq & Hlp & ->).
    apply loc_Return in Hq, Hp.
    pose proof (lookup_row_Some_elem _ _ _ Hq) as Hqin.
    pose proof (lookup_row_Some_elem _ _ _ Hp) as Hpin.
    apply (proj2 HrQ) in Hqin. apply (proj2 HrP) in Hpin. simpl in *.
    split; [|split; [|split]].
    + rewrite index_set_loc; [done|]. apply lookup_row_is_Some. by eexists.
    + rewrite index_set_loc; [done|]. apply lookup_row_is_Some. by eexists.
    + apply rectangular_set_loc; [done|lia].
    + apply rectangular_set_loc; [done|lia].
  - fold k. destruct (initial_factors_index scm k draw_Q draw_P) as [HiQ HiP].
    rewrite HiQ, Hci. done.
Qed.

(** X5. Training leaves the rows of the courses and of the students that no
    known rating names at their random initial values, in the matrices it
    has fitted and writes to the parameter files. *)
Theorem train_model_unrated_rows self
    (lam : R) (epochs : Z) (eta : R) (number_factors : Z) draw_Q draw_P self' errors :
  train_model self lam epochs eta number_factors draw_Q draw_P = Return (self', errors) →
  ∃ scm Q P,
    student_course_matrix self = Return (Some scm)
    ∧ fit self lam epochs eta number_factors draw_Q draw_P = Return ((Q, P), errors)
    ∧ model_parameters_path_Q self' = Some (to_csv Q)
    ∧ model_parameters_path_P self' = Some (to_csv P)
    ∧ let QP0 := initial_factors scm (Z.to_nat number_factors) draw_Q draw_P in
      (∀ c, c ∉ (known_ratings_matrix_path self).*1.*2 → loc c Q = loc c QP0.1)
      ∧ (∀ s, s ∉ (known_ratings_matrix_path self).*1.*1 → loc s P = loc s QP0.2).
Proof.
  intros Hrun.
  apply train_model_inv in Hrun
    as (scm & Q & P & Hscm & Hk & Hfit & _ & HfQ & HfP & _).
  exists scm, Q, P. split; [done|]. split; [done|]. split; [done|]. split; [done|].
  simpl.
  set (QP0 := initial_factors scm (Z.to_nat number_factors) draw_Q draw_P).
  split.
  - intros c Hc.
    apply (fit_invariant (λ QP, loc c QP.1 = loc c QP0.1)
             self lam epochs eta number_factors draw_Q draw_P scm (Q, P) errors Hscm);
      [|done|exact Hfit].
    intros [Q0 P0] [[m i] r] QP1 Hl HI Hstep. simpl in *.
    apply sgd_step_inv in Hstep as (q & p & q' & p' & _ & _ & _ & _ & ->). simpl.
    rewrite loc_set_loc_ne; [done|]. intros ->. apply Hc.
    apply (list_elem_of_fmap_2 snd _ (m, c)).
    apply (list_elem_of_fmap_2 fst _ (m, c, r)), Hl.
  - intros s Hs.
    apply (fit_invariant (λ QP, loc s QP.2 = loc s QP0.2)
             self lam epochs eta number_factors draw_Q draw_P scm (Q, P) errors Hscm);
      [|done|exact Hfit].
    intros [Q0 P0] [[m i] r] QP1 Hl HI Hstep. simpl in *.
    apply sgd_step_inv in Hstep as (q & p & q' & p' & _ & _ & _ & _ & ->). simpl.
    rewrite loc_set_loc_ne; [done|]. intros ->. apply Hs.
    apply (list_elem_of_fmap_2 fst _ (s, i)).
    apply (list_elem_of_fmap_2 fst _ (s, i, r)), Hl.
Qed.

End TrainerEdges.

(** ** More on the recommender *)

Section RecommendMore.

Context {R : Type} `{Scalar R}.
Implicit Types (self : RecommendationSystem (R:=R)) (university : University).
Implicit Types (student : Student) (clock : Clock) (s : Series (R:=R)).

Lemma matmul_index (Q : DataFrame R) (p : list R) : (matmul Q p).*1 = index Q.
Proof.
  unfold matmul, index. induction (rows Q) as [|r rs IH]; simpl; [done|].
  by f_equal.
Qed.

Lemma loc_labels_Return (ps : list (label * R)) labels :
  (∀ l, l ∈ labels → LStr l ∈ ps.*1) → ∃ selected, loc_labels ps labels = Return selected.
Proof.
  intros Hin. unfold loc_labels.
  destruct (List.filter _ labels) as [|m ms] eqn:Hf; [by eexists|]. exfalso.
  assert (In m (List.filter (λ l, bool_decide (LStr l ∉ ps.*1)) labels)) as Hm
    by (rewrite Hf; by left).
  apply filter_In in Hm as [Hm Hb]. apply bool_decide_eq_true in Hb.
  apply Hb, Hin. by apply list_elem_of_In.
Qed.

Lemma loc_labels_Raise (ps : list (label * R)) labels :
  List.filter (λ l, bool_decide (LStr l ∉ ps.*1)) labels ≠ [] →
  loc_labels ps labels
  = Raise (KeyError_not_in_index
             (List.filter (λ l, bool_decide (LStr l ∉ ps.*1)) labels)).
Proof. unfold loc_labels. by destruct (List.filter _ labels). Qed.

Lemma loc_labels_elem (ps : list (label * R)) labels selected (l : string) (v : R) :
  loc_labels ps labels = Return selected →
  (l, v) ∈ selected ↔ l ∈ labels ∧ lookup_row (LStr l) ps = Some v.
Proof.
  intros Hsel. split; [by apply loc_labels_lookup|].
  intros [Hl Hv]. apply loc_labels_inv in Hsel as [_ ->].
  apply list_elem_of_omap. exists l. split; [done|]. by rewrite Hv.
Qed.

(** X6. The number of recommendations of a call that returns is exactly
    min(top_n, number of courses of the matrix the student is not enrolled
    in). *)
Theorem recommend_count self clock university student (top_n : Z) recs :
  generate_recommendations self clock university student top_n = Return recs →
  ∃ scm,
    student_course_matrix self = Return (Some scm)
    ∧ Z.of_nat (length recs)
      = Z.min top_n (Z.of_nat (length (not_enrolled_in (columns scm) student))).
Proof.
  intros Hgen.
  apply generate_recommendations_Return in Hgen
    as (scm & Q & P & p & selected & Hn & _ & Hscm & _ & _ & Hsel & ->).
  exists scm. split; [done|].
  apply loc_labels_labels in Hsel.
  rewrite length_map. unfold head. rewrite length_take.
  rewrite sort_values_desc_perm.
  rewrite <- (length_fmap fst selected), Hsel. lia.
Qed.

(** X7. After a training run that returns on a matrix whose student numbers
    and course numbers are text (they begin with a letter and hold a
    digit), and as long as the matrix is not reloaded, a call with top_n in
    [1,3] for a student who has a row in the matrix returns
    recommendations: every label it looks up is there. *)
Theorem recommend_after_training self
    (lam : R) (epochs : Z) (eta : R) (number_factors : Z) draw_Q draw_P self' errors
    clock university student (top_n : Z) scm (students : list string) :
  train_model self lam epochs eta number_factors draw_Q draw_P = Return (self', errors) →
  student_course_matrix self = Return (Some scm) →
  index scm = LStr <$> students →
  Forall (λ t, text_label t = true) students →
  Forall (λ t, text_label t = true) (columns scm) →
  student_number student ∈ students →
  1 ≤ top_n ≤ 3 →
  ∃ recs,
    generate_recommendations self' clock university student top_n = Return recs.
Proof.
  intros Hrun Hscm Hidx Htext_s Htext_c Hstudent Hn.
  pose proof Hrun as Hinv.
  apply train_model_inv in Hinv
    as (scm' & Q & P & Hscm0 & Hk & Hfit & Hscm' & HfQ & HfP & Ht).
  rewrite Hscm in Hscm0. injection Hscm0 as <-.
  pose proof (student_course_matrix_Object _ _ Hscm) as Hobj.
  assert (columns_index scm = LStr <$> columns scm) as Hci
    by (unfold columns_index; by rewrite Hobj).
  assert (index Q = LStr <$> columns scm ∧ index P = index scm) as [HiQ HiP].
  { apply (fit_invariant
             (λ QP, index QP.1 = LStr <$> columns scm ∧ index QP.2 = index scm)
             self lam epochs eta number_factors draw_Q draw_P scm (Q, P) errors Hscm);
      [| |exact Hfit].
    - intros [Q0 P0] [[m i] r] QP1 _ [HQ0 HP0] Hstep. simpl in *.
      apply sgd_step_inv in Hstep as (q & p & q' & p' & Hq & Hp & _ & _ & ->).
      apply loc_Return in Hq, Hp. simpl.
      split; (rewrite index_set_loc; [done|]; apply lookup_row_is_Some; by eexists).
    - rewrite <- Hci. apply initial_factors_index. }
  destruct (parameters_text self' Q P (columns scm) students HfQ HfP)
    as (Q' & P' & Hpar & HrQ & HrP);
    [by eapply fit_named|done|by rewrite HiP|done|done|].
  rewrite (generate_recommendations_trained _ _ _ _ _ scm Q' P' Hn Ht Hscm' Hpar).
  destruct (loc_in_index P' (student_number student)) as (p & -> & _).
  { unfold index. rewrite HrP. fold (index P). rewrite HiP, Hidx.
    by apply list_elem_of_fmap_2. }
  rewrite bind_Return.
  destruct (loc_labels_Return (matmul Q' p) (not_enrolled_in (columns scm) student))
    as [selected ->]; [|by eexists].
  intros l Hl. apply not_enrolled_in_elem in Hl as [Hl _].
  rewrite matmul_index. unfold index. rewrite HrQ. fold (index Q). rewrite HiQ.
  by apply list_elem_of_fmap_2.
Qed.

(** X8. A matrix reloaded after the training run with courses that have no
    row in Q makes the call raise one key-lookup failure, which names every
    course the student is not enrolled in that has no row in Q. *)
Theorem recommend_stale_parameters self clock university student (top_n : Z)
    scm Q P p :
  1 ≤ top_n ≤ 3 →
  trained self = true →
  student_course_matrix self = Return (Some scm) →
  parameters self = Return (Some (Q, P)) →
  loc (student_number student) P = Return p →
  let missing := List.filter (λ c, bool_decide (LStr c ∉ index Q))
                             (not_enrolled_in (columns scm) student) in
  missing ≠ [] →
  generate_recommendations self clock university student top_n
  = Raise (KeyError_not_in_index missing).
Proof.
  intros Hn Ht Hscm Hpar Hp missing Hmissing.
  rewrite (generate_recommendations_trained _ _ _ _ _ scm Q P Hn Ht Hscm Hpar).
  rewrite Hp, bind_Return. unfold missing in *.
  rewrite <- (matmul_index Q p) in *.
  by rewrite loc_labels_Raise.
Qed.

(** X9. [find_course] finds a course exactly when the university has one of
    that number, and the course it returns is one of the university's with
    that number. *)
Theorem find_course_spec university (number : string) :
  (find_course university number = None
   ↔ number ∉ course_number <$> courses university)
  ∧ (∀ c, find_course university number = Some c →
          c ∈ courses university ∧ course_number c = number).
Proof.
  unfold find_course. split.
  - induction (courses university) as [|c cs IH]; simpl.
    + split; [intros _ Hin; inversion Hin|done].
    + case_bool_decide as Hc.
      * split; [done|]. intros Hnot. exfalso. apply Hnot. rewrite Hc.
        apply list_elem_of_here.
      * rewrite IH, not_elem_of_cons. split; [by intros ?; split|by intros [_ ?]].
  - intros c Hf. apply find_some in Hf as [Hin Hb].
    apply bool_decide_eq_true in Hb. by rewrite list_elem_of_In.
Qed.

End RecommendMore.

(** *** The order of the recommendations *)

Section RecommendOrder.

Context {R : Type} `{Scalar R}.
Implicit Types (self : RecommendationSystem (R:=R)) (university : University).
Implicit Types (student : Student) (clock : Clock) (s : Series (R:=R)).

(** The comparison of predicted ratings is a total preorder (as [<=] is on
    floats that are numbers). *)
Hypothesis rleb_total : ∀ a b : R, rleb a b = false → rleb b a = true.
Hypothesis rleb_trans : ∀ a b c : R, rleb a b = true → rleb b c = true → rleb a c = true.

Local Abbreviation above := (λ x y : string * R, rleb y.2 x.2 = true).

Lemma insert_desc_sorted (x : string * R) s :
  StronglySorted above s → StronglySorted above (insert_desc x s).
Proof.
  induction s as [|y s IH]; intros Hs; simpl.
  - repeat constructor.
  - apply StronglySorted_inv in Hs as [Hs Hy].
    destruct (rleb y.2 x.2) eqn:Hyx.
    + constructor; [by constructor|]. constructor; [done|].
      eapply Forall_impl; [exact Hy|]. simpl. intros z Hz. by eapply rleb_trans.
    + constructor; [by apply IH|].
      apply Forall_forall. intros z Hz. rewrite insert_desc_perm in Hz.
      apply elem_of_cons in Hz as [->|Hz]; [by apply rleb_total|].
      by eapply Forall_forall in Hy.
Qed.

Lemma sort_values_desc_sorted s : StronglySorted above (sort_values_desc s).
Proof.
  induction s as [|x s IH]; simpl; [constructor|]. by apply insert_desc_sorted.
Qed.

(** X10. The recommendations come in the order of their predicted ratings, from
    the highest down: they are built, in order, from (course, rating) pairs
    of [Q @ p] of which none is above one that comes before it. *)
Theorem recommend_sorted self clock university student (top_n : Z) recs :
  generate_recommendations self clock university student top_n = Return recs →
  ∃ Q P p (predicted : Series),
    parameters self = Return (Some (Q, P))
    ∧ loc (student_number student) P = Return p
    ∧ recs = map (λ cr : string * R,
                    new_Recommendation clock student
                      (find_course university cr.1) (cr.2 / of_Z 20)%S)
                 predicted
    ∧ (∀ cr : string * R, cr ∈ predicted →
         lookup_row (LStr cr.1) (matmul Q p) = Some cr.2)
    ∧ ∀ i j x y, (i < j)%nat → predicted !! i = Some x → predicted !! j = Some y →
                 rleb y.2 x.2 = true.
Proof.
  intros Hgen.
  apply generate_recommendations_Return in Hgen
    as (scm & Q & P & p & selected & _ & _ & _ & Hpar & Hp & Hsel & ->).
  eexists Q, P, p, _. split; [done|]. split; [done|]. split; [reflexivity|].
  split.
  - intros [c v] Hin. apply head_elem in Hin. rewrite sort_values_desc_perm in Hin.
    by apply (loc_labels_elem _ _ _ c v Hsel) in Hin as [_ ?].
  - intros i j x y Hij Hx Hy. unfold head in *.
    pose proof (sort_values_desc_sorted selected) as Hsorted.
    rewrite <- (take_drop (Z.to_nat (Z.min top_n
                   (Z.of_nat (length (not_enrolled_in (columns scm) student)))))
                 (sort_values_desc selected)) in Hsorted.
    apply StronglySorted_app_1_l in Hsorted.
    revert Hsorted i j x y Hij Hx Hy.
    generalize (take (Z.to_nat (Z.min top_n
                  (Z.of_nat (length (not_enrolled_in (columns scm) student)))))
                  (sort_values_desc selected)).
    intros l Hsorted. induction Hsorted as [|z l Hl IH Hz]; intros i j x y Hij Hx Hy.
    + done.
    + destruct j as [|j]; [lia|]. destruct i as [|i]; simpl in *.
      * injection Hx as <-. eapply Forall_forall in Hz; [exact Hz|].
        by eapply list_elem_of_lookup_2.
      * apply (IH i j); [lia|done|done].
Qed.

(** X11. The recommendations are the best of the complement: a course of the
    matrix that the student is not enrolled in and that is not recommended
    has a predicted rating that is not above that of any recommended one. *)
Theorem recommend_best self clock university student (top_n : Z) recs :
  generate_recommendations self clock university student top_n = Return recs →
  ∃ scm Q P p (predicted : Series),
    student_course_matrix self = Return (Some scm)
    ∧ parameters self = Return (Some (Q, P))
    ∧ loc (student_number student) P = Return p
    ∧ recs = map (λ cr : string * R,
                    new_Recommendation clock student
                      (find_course university cr.1) (cr.2 / of_Z 20)%S)
                 predicted
    ∧ ∀ c v cr,
        c ∈ not_enrolled_in (columns scm) student →
        c ∉ predicted.*1 →
        lookup_row (LStr c) (matmul Q p) = Some v →
        cr ∈ predicted →
        rleb v cr.2 = true.
Proof.
  intros Hgen.
  apply generate_recommendations_Return in Hgen
    as (scm & Q & P & p & selected & _ & _ & Hscm & Hpar & Hp & Hsel & ->).
  eexists scm, Q, P, p, _.
  split; [done|]. split; [done|]. split; [done|]. split; [reflexivity|].
  intros c v cr Hc Hnot Hv Hcr. unfold head in *.
  set (n := Z.to_nat (Z.min top_n
              (Z.of_nat (length (not_enrolled_in (columns scm) student))))) in *.
  pose proof (sort_values_desc_sorted selected) as Hsorted.
  rewrite <- (take_drop n (sort_values_desc selected)) in Hsorted.
  apply (StronglySorted_app_1_elem_of _ _ _ cr (c, v) Hsorted); [done|].
  assert ((c, v) ∈ sort_values_desc selected) as Hin.
  { rewrite sort_values_desc_perm. by apply (loc_labels_elem _ _ _ c v Hsel). }
  rewrite <- (take_drop n (sort_values_desc selected)) in Hin.
  apply elem_of_app in Hin as [Hin|Hin]; [|done].
  exfalso. apply Hnot. by apply (list_elem_of_fmap_2 fst _ (c, v)).
Qed.

End RecommendOrder.

(** ** The axes of the reloaded matrix *)

Section Axes.

Context {R : Type} `{Scalar R}.
Implicit Types (self : RecommendationSystem (R:=R)) (university : University).

Local Abbreviation before := (λ x y : string, String.compare x y = Lt).







End Axes.

(** ** The callers *)

Section Strings.

Implicit Types (s t sep cur : string).

Lemma append_cons (c : Ascii.ascii) s t : String c s +:+ t = String c (s +:+ t).
Proof. reflexivity. Qed.

Lemma append_nil_r s : s +:+ "" = s.
Proof. induction s as [|c s IH]; [done|]. by rewrite append_cons, IH. Qed.

Lemma append_assoc s t u : (s +:+ t) +:+ u = s +:+ (t +:+ u).
Proof. induction s as [|c s IH]; [done|]. by rewrite !append_cons, IH. Qed.

Lemma length_append s t : String.length (s +:+ t) = (String.length s + String.length t)%nat.
Proof. induction s as [|c s IH]; [done|]. rewrite append_cons. simpl. by rewrite IH. Qed.

Lemma prefix_append sep s :
  String.prefix sep s = true ↔ ∃ r, s = sep +:+ r.
Proof.
  revert s. induction sep as [|a sep IH]; intros s.
  - destruct s; simpl; (split; [intros _; by eexists|done]).
  - destruct s as [|b s]; simpl.
    + split; [done|]. intros [r Hr]. by rewrite append_cons in Hr.
    + destruct (Ascii.ascii_dec a b) as [->|Hab].
      * rewrite IH. split; intros [r Hr]; exists r.
        -- by rewrite append_cons, Hr.
        -- rewrite append_cons in Hr. by injection Hr.
      * split; [done|]. intros [r Hr]. rewrite append_cons in Hr. congruence.
Qed.

Lemma split_from_skip sep cur (x r : string) :
  split_from sep (String.length x) cur (x +:+ r) = split_from sep 0 cur r.
Proof.
  induction x as [|c x IH]; [by destruct r|]. rewrite append_cons. simpl. exact IH.
Qed.

Lemma split_from_cons sep skip cur s :
  ∃ h (pieces : list string), split_from sep skip cur s = h :: pieces.
Proof.
  revert skip cur. induction s as [|c s IH]; intros skip cur.
  - eexists _, _. reflexivity.
  - cbn [split_from]. destruct skip; [|apply IH].
    destruct (String.prefix sep (String c s)); [|apply IH].
    eexists _, _. reflexivity.
Qed.

Lemma str_join_cons sep (x : string) (l : list string) :
  l ≠ [] → str_join sep (x :: l) = x +:+ sep +:+ str_join sep l.
Proof. by destruct l. Qed.

(** Joining the pieces of a split with the separator gives the string
    back. *)
Lemma join_split_from sep (n : nat) :
  sep ≠ "" →
  ∀ s cur, (String.length s ≤ n)%nat →
           str_join sep (split_from sep 0 cur s) = cur +:+ s.
Proof.
  intros Hsep. induction n as [|n IH]; intros s cur Hlen.
  - destruct s; simpl in *; [by rewrite append_nil_r|lia].
  - destruct s as [|c s]; [simpl; by rewrite append_nil_r|]. simpl in Hlen.
    cbn [split_from].
    destruct (String.prefix sep (String c s)) eqn:Hp.
    + apply prefix_append in Hp as [r Hr].
      destruct sep as [|a sep']; [done|].
      rewrite append_cons in Hr. injection Hr as <- ->.
      replace (String.length (String c sep') - 1)%nat with (String.length sep')
        by (simpl; lia).
      rewrite split_from_skip.
      destruct (split_from_cons (String c sep') 0 "" r) as (h & t & Hsplit).
      rewrite str_join_cons; [|by rewrite Hsplit].
      rewrite IH; [by rewrite append_cons|].
      rewrite length_append in Hlen. lia.
    + rewrite IH; [|lia]. by rewrite append_assoc.
Qed.

Lemma split_from_occurrence sep cur (a b : string) :
  sep ≠ "" →
  ∃ h1 h2 (pieces : list string),
    split_from sep 0 cur (a +:+ sep +:+ b) = h1 :: h2 :: pieces.
Proof.
  intros Hsep. revert cur. induction a as [|c a IH]; intros cur.
  - change ("" +:+ sep +:+ b) with (sep +:+ b).
    destruct (sep +:+ b) as [|c s] eqn:Hs; [by destruct sep|].
    cbn [split_from].
    assert (String.prefix sep (String c s) = true) as ->
      by (apply prefix_append; by exists b).
    destruct (split_from_cons sep (String.length sep - 1) "" s) as (h & t & ->).
    by eexists _, _, _.
  - rewrite append_cons. cbn [split_from].
    destruct (String.prefix sep _).
    + destruct (split_from_cons sep (String.length sep - 1) ""
                  (a +:+ sep +:+ b)) as (h & t & ->).
      by eexists _, _, _.
    + apply IH.
Qed.

Lemma split_from_no_occurrence sep cur s :
  (∀ a b, s ≠ a +:+ sep +:+ b) → split_from sep 0 cur s = [cur +:+ s].
Proof.
  revert cur. induction s as [|c s IH]; intros cur Hno.
  - simpl. by rewrite append_nil_r.
  - cbn [split_from].
    destruct (String.prefix sep (String c s)) eqn:Hp.
    + apply prefix_append in Hp as [r Hr]. by destruct (Hno "" r).
    + rewrite IH; [by rewrite append_assoc|].
      intros a b ->. by destruct (Hno (String c a) b).
Qed.

Lemma str_join_snoc sep (l : list string) (x : string) :
  l ≠ [] → str_join sep (l ++ [x]) = str_join sep l +:+ sep +:+ x.
Proof.
  induction l as [|y l IH]; [done|]. intros _.
  destruct l as [|z l]; [done|].
  change ((y :: z :: l) ++ [x]) with (y :: ((z :: l) ++ [x])).
  rewrite str_join_cons; [|done]. rewrite IH; [|done].
  rewrite (str_join_cons sep y (z :: l)); [|done].
  by rewrite !append_assoc.
Qed.

(** X13. A person built by [from_string] with the default separator from a name
    that holds a space reads back, through [Person.name], as that name;
    from a name without a space the person has no names, the whole string
    as surname, and reads back with a space in front. *)
Theorem from_string_name (cls : user_class) (name username password : string)
    (person : Person) :
  from_string cls name username password " " = Return person →
  ((∃ a b, name = a +:+ " " +:+ b) → Person_name person = name)
  ∧ ((∀ a b, name ≠ a +:+ " " +:+ b) →
     names person = [] ∧ surname person = name
     ∧ Person_name person = " " +:+ name).
Proof.
  unfold from_string, str_split. rewrite decide_False by done. simpl.
  intros [= <-]. unfold Person_name. simpl. split.
  - intros (a & b & ->).
    destruct (split_from_occurrence " " "" a b) as (h1 & h2 & t & Hsplit); [done|].
    pose proof (join_split_from " " (String.length (a +:+ " " +:+ b)) ltac:(done)
                  (a +:+ " " +:+ b) "" ltac:(lia)) as Hjoin.
    rewrite Hsplit in Hjoin |- *.
    rewrite (app_removelast_last "" (l:=h1 :: h2 :: t)) in Hjoin at 1 by done.
    rewrite str_join_snoc in Hjoin; [exact Hjoin|].
    simpl. by destruct t.
  - intros Hno. rewrite (split_from_no_occurrence " " "" name Hno). done.
Qed.

End Strings.

Section Users.

(** X14. The years completed are half the terms, rounded towards zero: two
    terms or three make one year, and so do minus two or minus three make
    minus one. *)
Theorem years_completed_rounds (terms_completed : Z) :
  - 2 ^ 53 < terms_completed < 2 ^ 53 →
  (0 ≤ terms_completed →
   2 * years_completed terms_completed ≤ terms_completed
   ≤ 2 * years_completed terms_completed + 1)
  ∧ (terms_completed ≤ 0 →
     2 * years_completed terms_completed - 1 ≤ terms_completed
     ≤ 2 * years_completed terms_completed).
Proof.
  intros _. unfold years_completed.
  pose proof (Z.quot_rem' terms_completed 2) as Hq. split; intros Hs.
  - pose proof (Z.rem_bound_pos terms_completed 2 Hs ltac:(lia)). lia.
  - pose proof (Z.rem_bound_pos_neg terms_completed 2 ltac:(lia) Hs). lia.
Qed.

Lemma filter_unique (P : User → bool) (session : list User) (u : User) :
  NoDup (username <$> session) →
  (∀ w, P w = true → username w = username u) →
  u ∈ session → P u = true →
  List.filter P session = [u].
Proof.
  intros Hnd HP. induction session as [|w session IH]; intros Hin Hu.
  - inversion Hin.
  - simpl in Hnd. apply NoDup_cons in Hnd as [Hw Hnd]. simpl.
    apply elem_of_cons in Hin as [<-|Hin].
    + rewrite Hu. f_equal.
      assert (∀ x, x ∈ session → P x = false) as Hnone.
      { intros x Hx. destruct (P x) eqn:HPx; [|done].
        exfalso. apply Hw. rewrite <- (HP x HPx).
        by apply list_elem_of_fmap_2. }
      clear -Hnone. induction session as [|x session IH]; [done|]. simpl.
      rewrite Hnone by apply list_elem_of_here.
      apply IH. intros y Hy. by apply Hnone, list_elem_of_further.
    + destruct (P w) eqn:HPw; [|by apply IH].
      exfalso. apply Hw. rewrite (HP w HPw). by apply list_elem_of_fmap_2.
Qed.

Lemma elem_of_filter_In {A} (P : A → bool) (l : list A) (x : A) :
  x ∈ List.filter P l ↔ x ∈ l ∧ P x = true.
Proof. by rewrite !list_elem_of_In, filter_In. Qed.

(** X15. With user names that are unique in the table (the column is declared
    so), [verify_credentials] never fails its assertion: it returns the
    user of class [cls] with that name and password if the table has one,
    and [None] otherwise. *)
Theorem verify_credentials_unique (cls : user_class) (username' password' : string)
    (session : list User) :
  NoDup (username <$> session) →
  ∃ found,
    verify_credentials cls username' password' session = Return found
    ∧ ∀ u, found = Some u
           ↔ u ∈ session ∧ instance_of cls (type u) = true
             ∧ username u = username' ∧ password u = password'.
Proof.
  intros Hnd. unfold verify_credentials.
  set (P := λ u : User, instance_of cls (type u)
                        && bool_decide (username u = username')
                        && bool_decide (password u = password')).
  assert (∀ u, P u = true ↔ instance_of cls (type u) = true
                            ∧ username u = username' ∧ password u = password')
    as HP.
  { intros u. unfold P.
    rewrite !andb_true_iff, !bool_decide_eq_true. tauto. }
  assert (∀ u, u ∈ session → P u = true → List.filter P session = [u]) as Hone.
  { intros u Hin Hu. apply (filter_unique P session u Hnd); [|done|done].
    intros w Hw. apply HP in Hw, Hu. destruct Hw as (_ & -> & _).
    by destruct Hu as (_ & -> & _). }
  destruct (List.filter P session) as [|u rest] eqn:Hf.
  - exists None. split; [reflexivity|]. intros u. split; [done|].
    intros (Hin & Hu). apply HP in Hu. by pose proof (Hone u Hin Hu).
  - assert (u ∈ session ∧ P u = true) as [Hin Hu].
    { apply elem_of_filter_In. rewrite Hf. apply list_elem_of_here. }
    pose proof (Hone u Hin Hu) as [= ->].
    exists (Some u). split; [reflexivity|].
    intros v. split.
    + intros [= <-]. split; [done|]. by apply HP.
    + intros (Hv & HPv). apply HP in HPv.
      by pose proof (Hone v Hv HPv) as [= ->].
Qed.

End Users.

Section Rating.

Context {R : Type} `{Scalar R}.
Implicit Types (system : RecommendationSystem (R:=R)) (db : Database).

Lemma all_admissions_university_of db :
  all_admissions (university_of db)
  = c ← course_table db;
    (λ e, (enrolled_student_number e, enrolled_course_number e, course_rating e))
      <$> List.filter (λ e, bool_decide (enrolled_course_number e = c))
                      (student_course_table db).
Proof.
  unfold all_admissions, university_of. cbn [courses].
  induction (course_table db) as [|c cs IH]; [done|].
  cbn [map]. rewrite !bind_cons, IH. reflexivity.
Qed.

Lemma fmap_filter {A B} (g : A → B) (Q : B → bool) (l : list A) :
  g <$> List.filter (λ a, Q (g a)) l = List.filter Q (g <$> l).
Proof.
  induction l as [|a l IH]; [done|].
  rewrite fmap_cons. cbn [List.filter].
  destruct (Q (g a)); [rewrite fmap_cons|]; by rewrite IH.
Qed.

Lemma filter_fmap_pairs (c : string) (table : list StudentCourse) :
  ((λ e, (enrolled_student_number e, enrolled_course_number e, course_rating e))
     <$> List.filter (λ e, bool_decide (enrolled_course_number e = c)) table).*1
  = List.filter (λ p : string * string, bool_decide (p.2 = c))
      ((λ e, (enrolled_student_number e, enrolled_course_number e)) <$> table).
Proof.
  rewrite <- list_fmap_compose.
  pose proof (fmap_filter
                (λ e, (enrolled_student_number e, enrolled_course_number e))
                (λ p : string * string, bool_decide (p.2 = c)) table) as Hf.
  exact Hf.
Qed.

Lemma fmap_bind_fst {A B C} (f : A → list (B * C)) (l : list A) :
  (l ≫= f).*1 = l ≫= λ a, (f a).*1.
Proof.
  induction l as [|a l IH]; [done|]. by rewrite !bind_cons, fmap_app, IH.
Qed.

(** The (student, course) pairs a reload goes through depend on the
    enrolments' students and courses only. *)
Lemma all_admissions_pairs db :
  (all_admissions (university_of db)).*1
  = c ← course_table db;
    List.filter (λ p : string * string, bool_decide (p.2 = c))
      ((λ e, (enrolled_student_number e, enrolled_course_number e))
         <$> student_course_table db).
Proof.
  rewrite all_admissions_university_of, fmap_bind_fst.
  induction (course_table db) as [|c cs IH]; [done|].
  by rewrite !bind_cons, IH, filter_fmap_pairs.
Qed.

(** X16. A rating in [1,10] that a student gives to an enrolment of theirs, in a
    course of the university, is written to that enrolment alone; if no
    (student, course) pair occurred twice before, the reload that follows
    succeeds and the rating is a line of the known ratings it writes. *)
Theorem rate_course_known (self : string) (enrollment : nat) (rating : Z) db system
    (e : StudentCourse) :
  1 ≤ rating ≤ 10 →
  student_course_table db !! enrollment = Some e →
  enrolled_student_number e = self →
  enrolled_course_number e ∈ course_table db →
  NoDup (all_admissions (university_of db)).*1 →
  ∃ db' system',
    rate_course self enrollment rating true db system = Return (db', Return system')
    ∧ (self, enrolled_course_number e, rating) ∈ known_ratings_matrix_path system'
    ∧ course_rating <$> student_course_table db' !! enrollment = Some (Some rating)
    ∧ (∀ j, j ≠ enrollment →
         student_course_table db' !! j = student_course_table db !! j)
    ∧ course_table db' = course_table db.
Proof.
  intros Hr He Hself Hc Hnd. unfold rate_course.
  assert (in_range rating 1 11 = true) as -> by (apply in_range_spec; lia).
  simpl. rewrite He. rewrite bool_decide_eq_true_2 by done. simpl.
  set (e' := {| enrolled_student_number := enrolled_student_number e;
                course_rating := Some rating |}).
  set (db' := {| course_table := course_table db |}).
  assert (student_course_table db' !! enrollment = Some e') as He'.
  { simpl. apply list_lookup_insert_eq. by eapply lookup_lt_Some. }
  assert ((all_admissions (university_of db')).*1
          = (all_admissions (university_of db)).*1) as Hpairs.
  { rewrite !all_admissions_pairs. simpl. f_equal.
    rewrite list_fmap_insert. simpl.
    rewrite list_insert_id; [done|]. by rewrite list_lookup_fmap, He. }
  assert ((self, enrolled_course_number e, Some rating)
          ∈ all_admissions (university_of db')) as Hin.
  { rewrite all_admissions_university_of. apply list_elem_of_bind.
    exists (enrolled_course_number e). split; [|done].
    apply (list_elem_of_fmap_2' _ _ e'); [|by rewrite <- Hself].
    apply elem_of_filter_In. split.
    - by eapply list_elem_of_lookup_2.
    - by apply bool_decide_eq_true_2. }
  rewrite <- Hpairs in Hnd.
  pose proof (proj2 (reload_ratings_Return system (university_of db') _)
                (conj Hnd eq_refl)) as Hreload.
  eexists db', _. split; [by rewrite Hreload|]. simpl.
  split; [|split; [|split; [|done]]].
  - apply list_elem_of_omap. by eexists (_, _, Some rating).
  - by rewrite list_lookup_insert_eq by (by eapply lookup_lt_Some).
  - intros j Hj. by apply list_lookup_insert_ne.
Qed.

End Rating.

(** ** The further properties on the run of [demo.py] *)

Lemma train_model_no_epoch_demo :
  (∃ scm, student_course_matrix system_reloaded = Return (Some scm))
  ∧ 0 < 2 ∧ -1 ≤ 0
  ∧ ∃ self',
      train_model system_reloaded 1 (-1) 1 2 draw_tens draw_tens = Return (self', [])
      ∧ trained self' = true.
Proof.
  split; [eexists; reflexivity|]. split; [lia|]. split; [lia|].
  destruct (train_model_no_epoch system_reloaded 1 (-1) 1 2 draw_tens draw_tens _
              eq_refl) as (self' & Hrun & Ht & _); [lia|lia|].
  exists self'. split; [exact Hrun|exact Ht].
Defined.

Lemma train_model_fails_early_demo :
  header (student_course_matrix_path system_0) = []
  ∧ train_model system_0 1 40 1 20 draw_tens draw_tens
    = Raise (AttributeError "'NoneType' object has no attribute 'shape'")
  ∧ (∃ scm, student_course_matrix system_reloaded = Return (Some scm))
  ∧ train_model system_reloaded 1 40 1 0 draw_tens draw_tens = Raise ZeroDivisionError.
Proof.
  split; [reflexivity|]. split; [|split; [eexists; reflexivity|]].
  - exact (proj1 (train_model_fails_early system_0 1 40 1 20 draw_tens draw_tens)
             eq_refl).
  - exact (proj2 (train_model_fails_early system_reloaded 1 40 1 0 draw_tens draw_tens)
             _ eq_refl eq_refl).
Defined.

Lemma train_model_missing_key_demo :
  known_ratings_matrix_path system_out_of_step
  = [("nr1", "ST104a", 9)] ++ ("nr1", "ST104b", 5) :: []
  ∧ train_model system_out_of_step 1 40 1 2 draw_tens draw_tens
    = Raise (KeyError "ST104b").
Proof.
  split; [reflexivity|].
  refine (proj1 (train_model_missing_key system_out_of_step 1 40 1 2
                   draw_tens draw_tens _ [("nr1", "ST104a", 9)] [] "nr1" "ST104b" 5
                   eq_refl ltac:(lia) ltac:(lia) eq_refl _) _).
  - intros l Hl. apply list_elem_of_singleton in Hl as ->.
    split; apply (bool_decide_unpack _); vm_compute; exact I.
  - apply (bool_decide_unpack _). vm_compute. exact I.
Defined.

Lemma train_model_shape_demo :
  train_model system_reloaded 0 1 0 2 draw_tens draw_tens
  = Return (system_trained, [110209])
  ∧ ∃ Q P,
      model_parameters_path_Q system_trained = Some (to_csv Q)
      ∧ model_parameters_path_P system_trained = Some (to_csv P)
      ∧ index Q = [LStr "MT1173"; LStr "MT1174"; LStr "ST104a"]
      ∧ index P = [LStr "nr1"; LStr "nr2"]
      ∧ rectangular 2 Q ∧ rectangular 2 P.
Proof.
  assert (train_model system_reloaded 0 1 0 2 draw_tens draw_tens
          = Return (system_trained, [110209])) as Hrun by reflexivity.
  split; [exact Hrun|].
  destruct (train_model_shape _ _ _ _ _ _ _ _ _ Hrun)
    as (scm & Q & P & Hscm & _ & HfQ & HfP & HiQ & HiP & HQ & HP).
  exists Q, P. vm_compute in Hscm. injection Hscm as <-.
  split; [exact HfQ|]. split; [exact HfP|]. split; [exact HiQ|]. split; [exact HiP|].
  split; [exact HQ|exact HP].
Defined.

Lemma train_model_unrated_rows_demo :
  (∃ errors, (train_model system_2_reloaded 1 1 1 2 draw_tens draw_tens
              = Return (system_2_trained, errors)))
  ∧ ("ST104b" ∉ (known_ratings_matrix_path system_2_reloaded).*1.*2)
  ∧ ∃ Q P,
      model_parameters_path_Q system_2_trained = Some (to_csv Q)
      ∧ model_parameters_path_P system_2_trained = Some (to_csv P)
      ∧ loc "ST104b" Q = Return [10; 10].
Proof.
  assert (∃ errors, (train_model system_2_reloaded 1 1 1 2 draw_tens draw_tens
                     = Return (system_2_trained, errors))) as [errors Hrun]
    by (eexists; reflexivity).
  assert ("ST104b" ∉ (known_ratings_matrix_path system_2_reloaded).*1.*2) as Hnot
    by (apply (bool_decide_unpack _); vm_compute; exact I).
  split; [by exists errors|]. split; [exact Hnot|].
  destruct (train_model_unrated_rows _ _ _ _ _ _ _ _ _ Hrun)
    as (scm & Q & P & Hscm & _ & HfQ & HfP & HQ & _).
  exists Q, P. split; [exact HfQ|]. split; [exact HfP|].
  vm_compute in Hscm. injection Hscm as <-.
  rewrite (HQ "ST104b" Hnot). reflexivity.
Defined.

Lemma recommend_count_demo :
  ∃ recs,
    generate_recommendations system_trained clock_next_day university_1 student_2 1
    = Return recs
    ∧ Z.of_nat (length recs) = 1.
Proof.
  eexists. split; [reflexivity|].
  destruct (recommend_count system_trained clock_next_day university_1 student_2 1 _
              eq_refl) as (scm & Hscm & Hlen).
  vm_compute in Hscm. injection Hscm as <-. exact Hlen.
Defined.

Lemma recommend_after_training_demo :
  train_model system_reloaded 0 1 0 2 draw_tens draw_tens
  = Return (system_trained, [110209])
  ∧ (∃ scm, student_course_matrix system_reloaded = Return (Some scm)
            ∧ index scm = LStr <$> ["nr1"; "nr2"]
            ∧ Forall (λ t, text_label t = true) ["nr1"; "nr2"]
            ∧ Forall (λ t, text_label t = true) (columns scm)
            ∧ student_number student_2 ∈ ["nr1"; "nr2"])
  ∧ 1 ≤ 3 ≤ 3
  ∧ ∃ recs,
      generate_recommendations system_trained clock_next_day university_1 student_2 3
      = Return recs.
Proof.
  assert (1 ≤ 3 ≤ 3) as Hn by lia.
  assert (Forall (λ t, text_label t = true) ["nr1"; "nr2"]) as Hs
    by (repeat constructor).
  assert (Forall (λ t, text_label t = true) ["MT1173"; "MT1174"; "ST104a"]) as Hc
    by (repeat constructor).
  assert (student_number student_2 ∈ ["nr1"; "nr2"]) as Hin
    by (apply (bool_decide_unpack _); vm_compute; exact I).
  split; [reflexivity|]. split; [|split; [exact Hn|]].
  - eexists. split; [reflexivity|]. split; [reflexivity|].
    split; [exact Hs|]. split; [exact Hc|exact Hin].
  - exact (recommend_after_training system_reloaded 0 1 0 2 draw_tens draw_tens
             system_trained [110209] clock_next_day university_1 student_2 3 _
             ["nr1"; "nr2"] eq_refl eq_refl eq_refl Hs Hc Hin Hn).
Defined.

Lemma recommend_stale_parameters_demo :
  reload_ratings system_trained university_2 = Return system_stale
  ∧ trained system_stale = true
  ∧ generate_recommendations system_stale clock_next_day university_2 student_1 3
    = Raise (KeyError_not_in_index ["ST104b"]).
Proof.
  split; [reflexivity|]. split; [reflexivity|].
  refine (recommend_stale_parameters system_stale clock_next_day university_2
            student_1 3 _ _ _ [10; 10]
            ltac:(lia) eq_refl eq_refl eq_refl eq_refl _).
  discriminate.
Defined.

Lemma find_course_spec_demo :
  ("ST104b" ∉ course_number <$> courses (mkUniversity [course_1; course_3]))
  ∧ find_course (mkUniversity [course_1; course_3]) "ST104b" = None
  ∧ find_course university_1 "MT1174" = Some course_3
  ∧ course_3 ∈ courses university_1.
Proof.
  assert ("ST104b" ∉ course_number <$> courses (mkUniversity [course_1; course_3]))
    as Hnot by (apply (bool_decide_unpack _); vm_compute; exact I).
  split; [exact Hnot|]. split; [|split; [reflexivity|]].
  - exact (proj2 (proj1 (find_course_spec (mkUniversity [course_1; course_3])
                           "ST104b")) Hnot).
  - exact (proj1 (proj2 (find_course_spec university_1 "MT1174") course_3 eq_refl)).
Defined.

Lemma Z_leb_total (a b : Z) : rleb a b = false → rleb b a = true.
Proof. simpl. rewrite Z.leb_gt, Z.leb_le. lia. Qed.

Lemma Z_leb_trans (a b c : Z) : rleb a b = true → rleb b c = true → rleb a c = true.
Proof. simpl. rewrite !Z.leb_le. lia. Qed.

Lemma recommend_sorted_demo :
  ∃ recs (predicted : Series (R:=Z)),
    generate_recommendations system_2_trained clock_next_day university_2 student_1 3
    = Return recs
    ∧ length predicted = length recs
    ∧ ∀ i j x y, (i < j)%nat → predicted !! i = Some x → predicted !! j = Some y →
                 (y.2 <=? x.2) = true.
Proof.
  destruct (recommend_sorted (R:=Z) Z_leb_total Z_leb_trans system_2_trained
              clock_next_day university_2 student_1 3 _ eq_refl)
    as (Q & P & p & predicted & _ & _ & Hrecs & _ & Hsorted).
  eexists _, predicted. split; [reflexivity|]. split; [|exact Hsorted].
  rewrite Hrecs. by rewrite length_map.
Defined.

Lemma recommend_best_demo :
  ∃ recs,
    generate_recommendations system_2_trained clock_next_day university_2 student_1 1
    = Return recs
    ∧ length recs = 1%nat.
Proof.
  destruct (recommend_best (R:=Z) Z_leb_total Z_leb_trans system_2_trained
              clock_next_day university_2 student_1 1 _ eq_refl)
    as (scm & Q & P & p & predicted & _ & _ & _ & Hrecs & _).
  eexists. split; [reflexivity|]. reflexivity.
Defined.


Lemma from_string_name_demo :
  (∃ person, from_string StudentClass "Name Surname" "st1" "pw" " " = Return person
             ∧ names person = ["Name"] ∧ surname person = "Surname"
             ∧ Person_name person = "Name Surname")
  ∧ (∃ person, from_string StudentClass "Surname" "st1" "pw" " " = Return person
               ∧ Person_name person = " Surname").
Proof.
  split.
  - eexists. split; [reflexivity|]. split; [reflexivity|]. split; [reflexivity|].
    apply (from_string_name StudentClass "Name Surname" "st1" "pw" _ eq_refl).
    by exists "Name", "Surname".
  - eexists. split; [reflexivity|].
    apply (from_string_name StudentClass "Surname" "st1" "pw" _ eq_refl).
    intros a b Heq.
    assert (String.length "Surname" = String.length (a +:+ " " +:+ b)) as Hlen
      by (by rewrite <- Heq).
    assert (∃ h1 h2 pieces, split_from " " 0 "" "Surname" = h1 :: h2 :: pieces)
      as (h1 & h2 & pieces & Hs)
      by (rewrite Heq; by apply split_from_occurrence).
    discriminate Hs.
Defined.

Lemma years_completed_rounds_demo :
  - 2 ^ 53 < 7 < 2 ^ 53 ∧ 0 ≤ 7 ∧ years_completed 7 = 3
  ∧ 2 * years_completed 7 ≤ 7 ≤ 2 * years_completed 7 + 1.
Proof.
  assert (- 2 ^ 53 < 7 < 2 ^ 53) as Hb by lia.
  split; [exact Hb|]. split; [lia|]. split; [reflexivity|].
  exact (proj1 (years_completed_rounds 7 Hb) ltac:(lia)).
Defined.

Lemma verify_credentials_unique_demo :
  NoDup (username <$> users_1)
  ∧ verify_credentials PersonClass "st2" "pw" users_1
    = Return (Some (mkUser "st2" "pw" StudentClass))
  ∧ ∃ found, verify_credentials PersonClass "uni1" "pw" users_1 = Return found.
Proof.
  assert (NoDup (username <$> users_1)) as Hnd
    by (apply (bool_decide_unpack _); vm_compute; exact I).
  split; [exact Hnd|]. split; [reflexivity|].
  destruct (verify_credentials_unique PersonClass "uni1" "pw" users_1 Hnd)
    as (found & Hv & _).
  by exists found.
Defined.

Lemma rate_course_known_demo :
  1 ≤ 9 ≤ 10
  ∧ NoDup (all_admissions (university_of database_1)).*1
  ∧ ∃ db' system',
      rate_course "nr1" 0 9 true database_1 system_0 = Return (db', Return system')
      ∧ ("nr1", "ST104a", 9) ∈ known_ratings_matrix_path system'.
Proof.
  assert (1 ≤ 9 ≤ 10) as Hr by lia.
  assert (NoDup (all_admissions (university_of database_1)).*1) as Hnd
    by (apply (bool_decide_unpack _); vm_compute; exact I).
  split; [exact Hr|]. split; [exact Hnd|].
  destruct (rate_course_known (R:=Z) "nr1" 0 9 database_1 system_0
              (mkStudentCourse "nr1" "ST104a" None date_1) Hr eq_refl eq_refl)
    as (db' & system' & Hrate & Hknown & _); [|exact Hnd|].
  - apply (bool_decide_unpack _). vm_compute. exact I.
  - exists db', system'. split; [exact Hrate|exact Hknown].
Defined.
